(** * DX7Dump: a Yamaha DX7 bank dump (sysex) decoder

    Shallow embedding of [main.cpp] and the properties of its validator,
    its lookup tables, its listing and its duplicate finder.

    Conventions of the embedding.

    - A byte ([unsigned char]) is a [Byte.byte]; [u8] gives its value in
      [0, 256).  Integer expressions of the program are computed in [Z],
      with the wrap-around of [unsigned char] and [unsigned] written out
      where the program narrows a value.
    - The program reinterprets the bytes of the file as the packed structures
      [DX7Sysex], [VoicePacked] and [OperatorPacked].  The structures are
      modelled as views over the byte list: a field is read at its byte
      offset, a bit-field with [bitfield].  Bit-fields are laid out as GCC and
      Clang do on little-endian targets: the first declared field takes the
      least significant bits of the byte.
    - [std::cout] is a list of records, one per [std::endl].  The only text
      the model does not spell out is the one [operator<<(double)] writes for
      the fixed-mode frequency: that record keeps the two integer operands
      of the floating-point expression. *)

From Stdlib Require Import ZArith List Bool Lia.
From Stdlib Require Import Strings.String Strings.Ascii Strings.Byte.
From Stdlib Require Import DecimalString Sorted Permutation.
Import ListNotations.

Open Scope string_scope.
Open Scope Z_scope.

(** ** Bytes and bit-fields *)

Definition u8 (b : byte) : Z := Z.of_N (Byte.to_N b).

(** [static_cast<unsigned char>] and the narrowing of a compound assignment
    to an [unsigned char] variable. *)
Definition to_uchar (z : Z) : Z := z mod 256.

(** Conversion to [unsigned] (32 bits). *)
Definition to_unsigned (z : Z) : Z := z mod 2 ^ 32.

(** A bit-field of [width] bits whose least significant bit is bit [shift]
    of the byte that holds it. *)
Definition bitfield (b : byte) (shift width : Z) : Z :=
  Z.land (Z.shiftr (u8 b) shift) (Z.ones width).

(** [p[i]] on a byte buffer. *)
Definition at_index (p : list byte) (i : nat) : byte := nth i p x00.

(** A sub-range of a buffer: [len] bytes from offset [off]. *)
Definition slice {A : Type} (off len : nat) (p : list A) : list A :=
  firstn len (skipn off p).

(** ** The output stream *)

Inductive record : Type :=
| Line (text : string)
    (** the characters written up to one [std::endl] *)
| FixedFrequency (coarse_mod_4 fine : Z)
    (** ["  Frequency Course: " << pow(10, c + f / 100) << " Hz" << std::endl]
        with [c = double(coarse_mod_4)] and [f = double(fine)] *).

Definition ostream : Type := list record.

(** [operator<<] on [unsigned] and on a non-negative [int], in decimal. *)
Definition put_unsigned (n : Z) : string :=
  NilEmpty.string_of_uint (N.to_uint (Z.to_N n)).

(** [operator<<] on [int] and the [%d] conversion. *)
Definition put_int (n : Z) : string :=
  NilEmpty.string_of_int (Z.to_int n).

(** [std::setfill(fill) << std::setw(w) << s]: right-adjusted in a field of
    at least [w] characters. *)
Definition setfill_setw (fill : ascii) (w : nat) (s : string) : string :=
  string_of_list_ascii (repeat fill (w - String.length s)) ++ s.

(** [std::setfill('0') << std::setw(2) << n], as every number of the listing
    is written; the numbers are non-negative, so [int] and [unsigned] print
    alike. *)
Definition put02 (n : Z) : string := setfill_setw "0"%char 2 (put_int n).

(** [operator<<] on a [char *]: the characters before the first NUL. *)
Fixpoint c_str (p : list byte) : list byte :=
  match p with
  | [] => []
  | b :: q => if Byte.eqb b x00 then [] else b :: c_str q
  end.

Definition put_c_str (p : list byte) : string := string_of_list_byte (c_str p).

(** [snprintf(buffer, n, ...)] followed by the conversion of [buffer] to a
    [std::string]: at most [n - 1] characters are kept. *)
Definition snprintf (n : nat) (s : string) : string := substring 0 (n - 1) s.

(** ** The packed structures *)

Module OperatorPacked.
Definition sizeof : nat := 17.

Definition egRate1 (op : list byte) : Z := u8 (at_index op 0).
Definition egRate2 (op : list byte) : Z := u8 (at_index op 1).
Definition egRate3 (op : list byte) : Z := u8 (at_index op 2).
Definition egRate4 (op : list byte) : Z := u8 (at_index op 3).
Definition egLevel1 (op : list byte) : Z := u8 (at_index op 4).
Definition egLevel2 (op : list byte) : Z := u8 (at_index op 5).
Definition egLevel3 (op : list byte) : Z := u8 (at_index op 6).
Definition egLevel4 (op : list byte) : Z := u8 (at_index op 7).
Definition levelScaleBreakPoint (op : list byte) : Z := u8 (at_index op 8).
Definition levelScaleLeftDepth (op : list byte) : Z := u8 (at_index op 9).
Definition levelScaleRightDepth (op : list byte) : Z := u8 (at_index op 10).
Definition levelScaleLeftCurve (op : list byte) : Z :=
  bitfield (at_index op 11) 0 2.
Definition levelScaleRightCurve (op : list byte) : Z :=
  bitfield (at_index op 11) 2 2.
Definition oscillatorRateScale (op : list byte) : Z :=
  bitfield (at_index op 12) 0 3.
Definition detune (op : list byte) : Z := bitfield (at_index op 12) 3 4.
Definition amplitudeModulationSensitivity (op : list byte) : Z :=
  bitfield (at_index op 13) 0 2.
Definition keyVelocitySensitivity (op : list byte) : Z :=
  bitfield (at_index op 13) 2 3.
Definition outputLevel (op : list byte) : Z := u8 (at_index op 14).
Definition oscillatorMode (op : list byte) : Z :=
  bitfield (at_index op 15) 0 1.
Definition frequencyCoarse (op : list byte) : Z :=
  bitfield (at_index op 15) 1 5.
Definition frequencyFine (op : list byte) : Z := u8 (at_index op 16).
End OperatorPacked.

Module VoicePacked.
Definition sizeof : nat := 128.

(** [voice->operators[j]] *)
Definition operators (voice : list byte) (j : nat) : list byte :=
  slice (OperatorPacked.sizeof * j) OperatorPacked.sizeof voice.

Definition pitchEgRate1 (voice : list byte) : Z := u8 (at_index voice 102).
Definition pitchEgRate2 (voice : list byte) : Z := u8 (at_index voice 103).
Definition pitchEgRate3 (voice : list byte) : Z := u8 (at_index voice 104).
Definition pitchEgRate4 (voice : list byte) : Z := u8 (at_index voice 105).
Definition pitchEgLevel1 (voice : list byte) : Z := u8 (at_index voice 106).
Definition pitchEgLevel2 (voice : list byte) : Z := u8 (at_index voice 107).
Definition pitchEgLevel3 (voice : list byte) : Z := u8 (at_index voice 108).
Definition pitchEgLevel4 (voice : list byte) : Z := u8 (at_index voice 109).
Definition algorithm (voice : list byte) : Z :=
  bitfield (at_index voice 110) 0 5.
Definition feedback (voice : list byte) : Z :=
  bitfield (at_index voice 111) 0 3.
Definition oscillatorKeySync (voice : list byte) : Z :=
  bitfield (at_index voice 111) 3 1.
Definition lfoRate (voice : list byte) : Z := u8 (at_index voice 112).
Definition lfoDelay (voice : list byte) : Z := u8 (at_index voice 113).
Definition lfoPitchModulationDepth (voice : list byte) : Z :=
  u8 (at_index voice 114).
Definition lfoAmplitudeModulationDepth (voice : list byte) : Z :=
  u8 (at_index voice 115).
Definition lfoKeySync (voice : list byte) : Z :=
  bitfield (at_index voice 116) 0 1.
Definition lfoWave (voice : list byte) : Z :=
  bitfield (at_index voice 116) 1 3.
Definition lfoPitchModulationSensitivity (voice : list byte) : Z :=
  bitfield (at_index voice 116) 4 4.
Definition transpose (voice : list byte) : Z := u8 (at_index voice 117).
Definition name (voice : list byte) : list byte := slice 118 10 voice.
End VoicePacked.

Module DX7Sysex.
Definition sizeof : nat := 4104.

Definition sysexBeginF0 (sysex : list byte) : Z := u8 (at_index sysex 0).
Definition yamaha43 (sysex : list byte) : Z := u8 (at_index sysex 1).
Definition subStatusAndChannel (sysex : list byte) : Z :=
  u8 (at_index sysex 2).
Definition format9 (sysex : list byte) : Z := u8 (at_index sysex 3).
Definition sizeMsb (sysex : list byte) : Z := u8 (at_index sysex 4).
Definition sizeLsb (sysex : list byte) : Z := u8 (at_index sysex 5).

(** [(unsigned char * ) sysex->voices]: the buffer from the first voice on. *)
Definition voices_ptr (sysex : list byte) : list byte := skipn 6 sysex.

(** [sysex->voices[i]] *)
Definition voices (sysex : list byte) (i : nat) : list byte :=
  slice (VoicePacked.sizeof * i) VoicePacked.sizeof (voices_ptr sysex).

Definition checksum (sysex : list byte) : Z := u8 (at_index sysex 4102).
Definition sysexEndF7 (sysex : list byte) : Z := u8 (at_index sysex 4103).
End DX7Sysex.

(** ** Lookup tables *)

Definition out_of_range : string := "*out of range*".

Definition onOff (x : Z) : string :=
  if 1 <? x then out_of_range
  else nth (Z.to_nat x) ["Off"; "On"] "".

Definition curve (x : Z) : string :=
  if 3 <? x then out_of_range
  else nth (Z.to_nat x) ["-LIN"; "-EXP"; "+EXP"; "+LIN"] "".

Definition lfoWave (x : Z) : string :=
  if 5 <? x then out_of_range
  else nth (Z.to_nat x)
         ["Triangle"; "Sawtooth Down"; "Sawtooth Up"; "Square"; "Sine";
          "Sample and Hold"] "".

Definition mode (x : Z) : string :=
  if 1 <? x then out_of_range
  else nth (Z.to_nat x) ["Ratio"; "Fixed"] "".

Definition notes : list string :=
  ["C"; "C#"; "D"; "D#"; "E"; "F"; "F#"; "G"; "G#"; "A"; "A#"; "B"].

Definition note (x : Z) : string :=
  let x := x mod 12 in
  nth (Z.to_nat x) notes "".

Definition transpose (x : Z) : string :=
  if 48 <? x then out_of_range
  else snprintf 9 (note x ++ put_unsigned (x / 12 + 1)).

Definition breakPoint (x : Z) : string :=
  if 99 <? x then out_of_range
  else
    let octave := Z.quot (x - 3 + 12) 12 - 1 in
    snprintf 9 (note (to_unsigned (x + 9)) ++ put_int octave).

(** ** [verify] *)

(** The loop [for (i = 0; i < 4096; ++i) sum += (p[i] & 0x7F)], [n] iterations
    of it from index [i]; [sum] is an [unsigned char]. *)
Fixpoint checksum_loop (p : list byte) (n : nat) (i : nat) (sum : Z) : Z :=
  match n with
  | O => sum
  | S n' =>
      checksum_loop p n' (S i) (to_uchar (sum + Z.land (u8 (at_index p i)) 0x7F))
  end.

(** The value of [sum] when [verify] compares it with the stored checksum. *)
Definition computed_checksum (sysex : list byte) : Z :=
  let p := DX7Sysex.voices_ptr sysex in
  let sum := checksum_loop p 4096 0 0 in
  (* Two's complement. *)
  let sum := to_uchar (Z.lnot sum + 1) in
  (* Mask to 7 bits. *)
  Z.land sum 0x7F.

Definition msg_start : string := "Did not find sysex start 0xF0.".
Definition msg_yamaha : string := "Did not find Yamaha 0x43.".
Definition msg_substatus : string := "Did not find substatus 0 and channel 1.".
Definition msg_format : string := "Did not find format 9 (32 voices).".
Definition msg_size : string := "Did not find size 4096.".
Definition msg_end : string := "Did not find sysex end 0xF7.".
Definition msg_checksum (sum : Z) : string :=
  "Checksum failed: Should have been 0x" ++ put_int sum.

(** [verify] gives what it writes and the value it returns. *)
Definition verify (sysex : list byte) : ostream * Z :=
  if negb (DX7Sysex.sysexBeginF0 sysex =? 0xF0) then ([Line msg_start], 1)
  else if negb (DX7Sysex.yamaha43 sysex =? 0x43) then ([Line msg_yamaha], 1)
  else if negb (DX7Sysex.subStatusAndChannel sysex =? 0) then
    ([Line msg_substatus], 1)
  else if negb (DX7Sysex.format9 sysex =? 0x09) then ([Line msg_format], 1)
  else if negb (DX7Sysex.sizeMsb sysex =? 0x20)
          || negb (DX7Sysex.sizeLsb sysex =? 0) then ([Line msg_size], 1)
  else if negb (DX7Sysex.sysexEndF7 sysex =? 0xF7) then ([Line msg_end], 1)
  else
    let sum := computed_checksum sysex in
    if negb (sum =? DX7Sysex.checksum sysex) then ([Line (msg_checksum sum)], 1)
    else ([], 0).

(** ** [format] *)

(** The body of the loop over the operators, after the heading: the listing
    of the operator [op]. *)
Definition format_operator_fields (op : list byte) : ostream :=
  [ Line "  Envelope Generator:";
    Line ("    Rate 1: " ++ put02 (OperatorPacked.egRate1 op));
    Line ("    Rate 2: " ++ put02 (OperatorPacked.egRate2 op));
    Line ("    Rate 3: " ++ put02 (OperatorPacked.egRate3 op));
    Line ("    Rate 4: " ++ put02 (OperatorPacked.egRate4 op));
    Line ("    Level 1: " ++ put02 (OperatorPacked.egLevel1 op));
    Line ("    Level 2: " ++ put02 (OperatorPacked.egLevel2 op));
    Line ("    Level 3: " ++ put02 (OperatorPacked.egLevel3 op));
    Line ("    Level 4: " ++ put02 (OperatorPacked.egLevel4 op));
    Line "  Level Scale:";
    Line ("    Break Point: " ++ put02 (OperatorPacked.levelScaleBreakPoint op)
          ++ " (" ++ breakPoint (OperatorPacked.levelScaleBreakPoint op) ++ ")");
    Line ("    Left Depth: " ++ put02 (OperatorPacked.levelScaleLeftDepth op));
    Line ("    Right Depth: " ++ put02 (OperatorPacked.levelScaleRightDepth op));
    Line ("    Left Curve: " ++ put02 (OperatorPacked.levelScaleLeftCurve op)
          ++ " (" ++ curve (OperatorPacked.levelScaleLeftCurve op) ++ ")");
    Line ("    Right Curve: " ++ put02 (OperatorPacked.levelScaleRightCurve op)
          ++ " (" ++ curve (OperatorPacked.levelScaleRightCurve op) ++ ")");
    Line ("  Oscillator Rate Scale: "
          ++ put02 (OperatorPacked.oscillatorRateScale op));
    Line ("  Amp Mod Sense: "
          ++ put02 (OperatorPacked.amplitudeModulationSensitivity op));
    Line ("  Key Velocity Sense: "
          ++ put02 (OperatorPacked.keyVelocitySensitivity op));
    Line ("  Output Level: " ++ put02 (OperatorPacked.outputLevel op));
    Line ("  Oscillator Mode: " ++ put02 (OperatorPacked.oscillatorMode op)
          ++ " (" ++ mode (OperatorPacked.oscillatorMode op) ++ ")");
    (if OperatorPacked.oscillatorMode op =? 0 then
       (* Ratio mode. *)
       Line ("  Frequency Course: " ++ put02 (OperatorPacked.frequencyCoarse op))
     else
       (* Fixed mode. *)
       FixedFrequency (Z.rem (OperatorPacked.frequencyCoarse op) 4)
                      (OperatorPacked.frequencyFine op));
    Line ("  Frequency Fine: " ++ put02 (OperatorPacked.frequencyFine op));
    Line ("  Detune: " ++ put02 (OperatorPacked.detune op)) ]%list.

(** One iteration of [for (unsigned i = 0; i < 6; ++i)]. *)
Definition format_operator (voice : list byte) (i : nat) : ostream :=
  ([ Line ""; Line ("Operator " ++ put02 (Z.of_nat i + 1) ++ ": ") ]
   ++
   (* Operators are stored in backwards order. *)
   let j := (5 - i)%nat in
   let op := VoicePacked.operators voice j in
   format_operator_fields op)%list.

(** The lines of the long listing of a voice that come before its operators. *)
Definition format_voice_fields (filename : string) (voiceNumber : nat)
    (voice : list byte) : ostream :=
  let name := put_c_str (VoicePacked.name voice) in
  [ Line "";
    Line ("Filename: " ++ filename);
    Line ("Voice: " ++ put02 (Z.of_nat voiceNumber + 1));
    Line ("Name: " ++ name);
    Line "";
    Line ("Algorithm: " ++ put02 (VoicePacked.algorithm voice + 1));
    Line "Pitch Envelope Generator:";
    Line ("  Rate 1: " ++ put02 (VoicePacked.pitchEgRate1 voice));
    Line ("  Rate 2: " ++ put02 (VoicePacked.pitchEgRate2 voice));
    Line ("  Rate 3: " ++ put02 (VoicePacked.pitchEgRate3 voice));
    Line ("  Rate 4: " ++ put02 (VoicePacked.pitchEgRate4 voice));
    Line ("  Level 1: " ++ put02 (VoicePacked.pitchEgLevel1 voice));
    Line ("  Level 2: " ++ put02 (VoicePacked.pitchEgLevel2 voice));
    Line ("  Level 3: " ++ put02 (VoicePacked.pitchEgLevel3 voice));
    Line ("  Level 4: " ++ put02 (VoicePacked.pitchEgLevel4 voice));
    Line ("Feedback: " ++ put02 (VoicePacked.feedback voice));
    Line ("Oscillator Key Sync: " ++ put02 (VoicePacked.oscillatorKeySync voice)
          ++ " (" ++ onOff (VoicePacked.oscillatorKeySync voice) ++ ")");
    Line "LFO:";
    Line ("  Rate: " ++ put02 (VoicePacked.lfoRate voice));
    Line ("  Delay: " ++ put02 (VoicePacked.lfoDelay voice));
    Line ("  Amp Mod Depth: "
          ++ put02 (VoicePacked.lfoAmplitudeModulationDepth voice));
    Line ("  Pitch Mod Depth: "
          ++ put02 (VoicePacked.lfoPitchModulationDepth voice));
    Line ("  Key Sync: " ++ put02 (VoicePacked.lfoKeySync voice)
          ++ " (" ++ onOff (VoicePacked.lfoKeySync voice) ++ ")");
    Line ("  Wave: " ++ put02 (VoicePacked.lfoWave voice)
          ++ " (" ++ lfoWave (VoicePacked.lfoWave voice) ++ ")");
    Line ("Pitch Mod Sense: "
          ++ put02 (VoicePacked.lfoPitchModulationSensitivity voice));
    Line ("Transpose: " ++ put02 (VoicePacked.transpose voice)
          ++ " (" ++ transpose (VoicePacked.transpose voice) ++ ")") ]%list.

Definition separator : string :=
  "-------------------------------------------------".

(** One iteration of [for (voiceNumber = 0; voiceNumber < 32; ++voiceNumber)]
    past the [continue] of the patch filter. *)
Definition format_voice (filename : string) (displayLongListing : bool)
    (voiceNumber : nat) (voice : list byte) : ostream :=
  let name := put_c_str (VoicePacked.name voice) in
  if negb displayLongListing then
    [ Line (put02 (Z.of_nat voiceNumber + 1) ++ ": " ++ name) ]%list
  else
    (format_voice_fields filename voiceNumber voice
     ++ flat_map (format_operator voice) (seq 0 6)
     ++ [ Line ""; Line separator; Line "" ])%list.

Definition format (sysex : list byte) (filename : string)
    (displayLongListing : bool) (patchToDisplay : Z) : ostream :=
  flat_map
    (fun voiceNumber =>
       if (0 <=? patchToDisplay)
          && negb (patchToDisplay =? Z.of_nat voiceNumber + 1)
       then []%list
       else
         let voice := DX7Sysex.voices sysex voiceNumber in
         format_voice filename displayLongListing voiceNumber voice)
    (seq 0 32).

(** ** [findDuplicates] *)

(** [memcmp(a, b, n)]: zero when the first [n] bytes agree, otherwise the
    sign of the difference at the first byte that differs. *)
Fixpoint memcmp (a b : list byte) (n : nat) : Z :=
  match n with
  | O => 0
  | S n' =>
      let x := u8 (hd x00 a) in
      let y := u8 (hd x00 b) in
      if x <? y then -1
      else if y <? x then 1
      else memcmp (tl a) (tl b) n'
  end.

Definition msg_duplicates (i j : nat) : string :=
  "Found duplicates: Voice " ++ put_int (Z.of_nat i + 1)
  ++ " and voice " ++ put_int (Z.of_nat j + 1) ++ ".".

Definition findDuplicates (sysex : list byte) : ostream :=
  flat_map
    (fun i =>
       (* For each patch after that patch. *)
       flat_map
         (fun j =>
            (* Compare the patches. Subtract 10 to remove the name from the
               diff. *)
            let rc := memcmp (DX7Sysex.voices sysex i) (DX7Sysex.voices sysex j)
                             (VoicePacked.sizeof - 10) in
            if rc =? 0 then [ Line (msg_duplicates i j) ]%list else []%list)
         (seq (i + 1) (32 - (i + 1))))
    (seq 0 31).

(** ** [main], from the size check on

    The options are already parsed: [-p N] sets [displayLongListing] and
    stores [N] in [patchToDisplay], which is [-1] without it.  The result is
    the output and the exit status. *)
Definition main (displayLongListing shouldFindDuplicates : bool)
    (patchToDisplay : Z) (filename : string) (buffer : list byte)
    : ostream * Z :=
  if negb (List.length buffer =? DX7Sysex.sizeof)%nat then
    ([ Line ("Error: " ++ filename
             ++ " does not match the expected size of a sysex file.") ]%list, 1)
  else
    let sysex := buffer in
    let (out, rc) := verify sysex in
    if negb (rc =? 0) then
      ((out ++ [ Line ("Error: " ++ filename ++ " is not a valid sysex file.") ])
       %list, 1)
    else
      ((format sysex filename displayLongListing patchToDisplay
        ++ (if shouldFindDuplicates then findDuplicates sysex else []))%list, 0).

(** ** The specification's side

    Definitions that follow the words of the specification, to be compared
    with the program's. *)

(** The sum of the payload bytes, each masked to its low 7 bits, without any
    bound on the sum. *)
Definition masked_sum (payload : list byte) : Z :=
  fold_right (fun b acc => Z.land (u8 b) 0x7F + acc) 0 payload.

(** The two's complement of that sum, masked to 7 bits. *)
Definition recomputeChecksum (payload : list byte) : Z :=
  Z.land (Z.lnot (masked_sum payload) + 1) 0x7F.

(** The payload of a message: its 4096 bytes after the six header bytes. *)
Definition payload (sysex : list byte) : list byte := slice 6 4096 sysex.

(** The seven checks of the validator, in the order of the specification. *)
Inductive check : Type :=
| StartMarker | VendorMarker | SubStatus | FormatCode | SizeBytes | EndMarker
| Checksum.

Definition check_order : list check :=
  [StartMarker; VendorMarker; SubStatus; FormatCode; SizeBytes; EndMarker;
   Checksum].

Definition passes (sysex : list byte) (c : check) : bool :=
  match c with
  | StartMarker => DX7Sysex.sysexBeginF0 sysex =? 0xF0
  | VendorMarker => DX7Sysex.yamaha43 sysex =? 0x43
  | SubStatus => DX7Sysex.subStatusAndChannel sysex =? 0x00
  | FormatCode => DX7Sysex.format9 sysex =? 0x09
  | SizeBytes =>
      (DX7Sysex.sizeMsb sysex =? 0x20) && (DX7Sysex.sizeLsb sysex =? 0x00)
  | EndMarker => DX7Sysex.sysexEndF7 sysex =? 0xF7
  | Checksum => DX7Sysex.checksum sysex =? recomputeChecksum (payload sysex)
  end.

(** The error reason of a failing check. *)
Definition reason (sysex : list byte) (c : check) : string :=
  match c with
  | StartMarker => msg_start
  | VendorMarker => msg_yamaha
  | SubStatus => msg_substatus
  | FormatCode => msg_format
  | SizeBytes => msg_size
  | EndMarker => msg_end
  | Checksum => msg_checksum (recomputeChecksum (payload sysex))
  end.

(** Validation as the specification words it: the checks are tried in order
    and the first one that fails gives the error. *)
Definition validate (sysex : list byte) : ostream * Z :=
  match find (fun c => negb (passes sysex c)) check_order with
  | Some c => ([Line (reason sysex c)], 1)
  | None => ([], 0)
  end.

(** The pairs of voice indices (0-based) in the order of the double loop. *)
Definition voice_pairs : list (nat * nat) :=
  flat_map (fun i => map (pair i) (seq (i + 1) (32 - (i + 1)))) (seq 0 31).

(** The pairs the duplicate detector has to report: those whose records
    agree on every byte before the name. *)
Definition same_parameters (sysex : list byte) (ij : nat * nat) : bool :=
  if list_eq_dec Byte.byte_eq_dec
       (firstn (VoicePacked.sizeof - 10) (DX7Sysex.voices sysex (fst ij)))
       (firstn (VoicePacked.sizeof - 10) (DX7Sysex.voices sysex (snd ij)))
  then true else false.

Definition duplicate_pairs (sysex : list byte) : list (nat * nat) :=
  filter (same_parameters sysex) voice_pairs.

(** The record written for a pair of duplicates. *)
Definition duplicate_line (ij : nat * nat) : record :=
  Line (msg_duplicates (fst ij) (snd ij)).

(** Ascending order on pairs: by the first index, then by the second. *)
Definition pair_lt (a b : nat * nat) : Prop :=
  (fst a < fst b)%nat \/ (fst a = fst b /\ (snd a < snd b)%nat).

(** The number a decimal numeral denotes, leading zeros allowed. *)
Definition decimal_value (s : string) : option Z :=
  option_map (fun d => Z.of_N (N.of_uint d)) (NilEmpty.uint_of_string s).

(** The raw numeric fields of a voice, each with the label of its line in
    the long listing, the algorithm selector apart. *)
Definition voice_numeric_fields : list (string * (list byte -> Z)) :=
  [ ("  Rate 1: ", VoicePacked.pitchEgRate1);
    ("  Rate 2: ", VoicePacked.pitchEgRate2);
    ("  Rate 3: ", VoicePacked.pitchEgRate3);
    ("  Rate 4: ", VoicePacked.pitchEgRate4);
    ("  Level 1: ", VoicePacked.pitchEgLevel1);
    ("  Level 2: ", VoicePacked.pitchEgLevel2);
    ("  Level 3: ", VoicePacked.pitchEgLevel3);
    ("  Level 4: ", VoicePacked.pitchEgLevel4);
    ("Feedback: ", VoicePacked.feedback);
    ("Oscillator Key Sync: ", VoicePacked.oscillatorKeySync);
    ("  Rate: ", VoicePacked.lfoRate);
    ("  Delay: ", VoicePacked.lfoDelay);
    ("  Amp Mod Depth: ", VoicePacked.lfoAmplitudeModulationDepth);
    ("  Pitch Mod Depth: ", VoicePacked.lfoPitchModulationDepth);
    ("  Key Sync: ", VoicePacked.lfoKeySync);
    ("  Wave: ", VoicePacked.lfoWave);
    ("Pitch Mod Sense: ", VoicePacked.lfoPitchModulationSensitivity);
    ("Transpose: ", VoicePacked.transpose) ].

(** The raw numeric fields of an operator that the long listing prints in
    both oscillator modes. *)
Definition operator_numeric_fields : list (string * (list byte -> Z)) :=
  [ ("    Rate 1: ", OperatorPacked.egRate1);
    ("    Rate 2: ", OperatorPacked.egRate2);
    ("    Rate 3: ", OperatorPacked.egRate3);
    ("    Rate 4: ", OperatorPacked.egRate4);
    ("    Level 1: ", OperatorPacked.egLevel1);
    ("    Level 2: ", OperatorPacked.egLevel2);
    ("    Level 3: ", OperatorPacked.egLevel3);
    ("    Level 4: ", OperatorPacked.egLevel4);
    ("    Break Point: ", OperatorPacked.levelScaleBreakPoint);
    ("    Left Depth: ", OperatorPacked.levelScaleLeftDepth);
    ("    Right Depth: ", OperatorPacked.levelScaleRightDepth);
    ("    Left Curve: ", OperatorPacked.levelScaleLeftCurve);
    ("    Right Curve: ", OperatorPacked.levelScaleRightCurve);
    ("  Oscillator Rate Scale: ", OperatorPacked.oscillatorRateScale);
    ("  Amp Mod Sense: ", OperatorPacked.amplitudeModulationSensitivity);
    ("  Key Velocity Sense: ", OperatorPacked.keyVelocitySensitivity);
    ("  Output Level: ", OperatorPacked.outputLevel);
    ("  Oscillator Mode: ", OperatorPacked.oscillatorMode);
    ("  Frequency Fine: ", OperatorPacked.frequencyFine);
    ("  Detune: ", OperatorPacked.detune) ].

(** A line of the listing shows the number [n] under [label] when it is the
    label and the number written in a zero-filled field of width 2, with
    nothing after it or, after a space, an annotation in parentheses. *)
Definition shows (out : ostream) (label : string) (n : Z) : Prop :=
  In (Line (label ++ put02 n)) out
  \/ exists note : string,
       In (Line (label ++ put02 n ++ " (" ++ note ++ ")")) out.

(** The number read on a line under a label: what follows the label, up to
    the first character that is not a digit, as a decimal numeral. *)
Definition is_digit (c : ascii) : bool :=
  ((48 <=? nat_of_ascii c) && (nat_of_ascii c <=? 57))%nat.

Fixpoint leading_digits (s : string) : string :=
  match s with
  | EmptyString => EmptyString
  | String c s' => if is_digit c then String c (leading_digits s') else EmptyString
  end.

Fixpoint after_label (label text : string) : option string :=
  match label, text with
  | EmptyString, _ => Some text
  | String a label', String b text' =>
      if Ascii.eqb a b then after_label label' text' else None
  | String _ _, EmptyString => None
  end.

Definition number_under (label text : string) : option Z :=
  match after_label label text with
  | Some rest => decimal_value (leading_digits rest)
  | None => None
  end.

(** ** Sample messages *)

Definition header : list byte := [xf0; x43; x00; x09; x20; x00].

(** A bank whose payload is [body] (4096 bytes are expected), with the stored
    checksum [sum]. *)
Definition bank (body : list byte) (sum : byte) : list byte :=
  (header ++ body ++ [sum; xf7])%list.

(** The bank of 32 all-zero voices. *)
Definition zero_bank : list byte := bank (repeat x00 4096) x00.

(** A bank whose first payload byte is 1: its checksum is 0x7F. *)
Definition one_bank : list byte := bank (x01 :: repeat x00 4095) x7f.

(** The voice of 128 zero bytes. *)
Definition zero_voice : list byte := repeat x00 128.

(** The voice whose byte at offset [k] is [k]. *)
Definition ramp_voice : list byte :=
  map (fun k => match Byte.of_N (N.of_nat k) with Some b => b | None => x00 end)
      (seq 0 128).

(** A valid bank in which voices 1 and 3 differ by their names only and
    voice 2 differs from them by its first byte; the other voices are zero. *)
Definition named_bank : list byte :=
  bank (repeat x00 118 ++ repeat x41 10
        ++ x01 :: repeat x00 127
        ++ repeat x00 118 ++ repeat x42 10
        ++ repeat x00 (29 * 128))%list
       x61.

(** A buffer without vendor marker and with a wrong checksum, the other
    markers being in place. *)
Definition vendorless_bank : list byte :=
  ([xf0; x00; x00; x09; x20; x00] ++ repeat x00 4096 ++ [x01; xf7])%list.

(** A buffer without start marker, without vendor marker and with a wrong
    checksum. *)
Definition unmarked_bank : list byte :=
  ([x00; x00; x00; x09; x20; x00] ++ repeat x00 4096 ++ [x01; xf7])%list.

(** ** [processOptions] and the whole of [main]

    [getopt_long] and [strtol] are library code: the options are given as
    the sequence of values [getopt_long] returns before -1, each with the
    value [strtol(optarg, nullptr, 0)] has for it (used by [-p] only).  The
    file system is a function from a file name to the bytes of the file or,
    when it cannot be opened, to the text of [strerror(errno)]. *)

(** Conversion of a [long] to [int]: modulo [2 ^ 32], as GCC and Clang do. *)
Definition to_int (z : Z) : Z := (z + 2 ^ 31) mod 2 ^ 32 - 2 ^ 31.

Module Options.
Record t : Type := make {
  displayLongListing : bool;
  shouldFindDuplicates : bool;
  patchToDisplay : Z
}.
End Options.

Definition tab : string := String (ascii_of_nat 9) "".

Definition version_text (version : string) : ostream :=
  [ Line ("dx7dump " ++ version);
    Line "Yamaha DX7 Sysex Dump";
    Line "Copyright 2012, Ted Felix (GPLv3+)";
    Line "Updated in 2019 by Francois W. Nel" ]%list.

Definition help_text : ostream :=
  [ Line "Usage: dx7dump [OPTIONS] filename";
    Line "";
    Line ("Options:" ++ tab ++ "-l" ++ tab
          ++ "List all parameters for all 32 patches.");
    Line (tab ++ tab ++ "-p n" ++ tab
          ++ "List all parameters for the specified patch.");
    Line (tab ++ tab ++ "-v" ++ tab ++ "Display version information.");
    Line (tab ++ tab ++ "-h" ++ tab ++ "Display this help information.") ]%list.

Definition msg_unexpected : string := "Unexpected option. Try -h for help.".

(** The loop of [processOptions] on the values [getopt_long] returns.  The
    result is [inl (out, status)] when the function calls [exit], and
    otherwise the three variables it has set. *)
Fixpoint processOptions (version : string) (results : list (ascii * Z))
    (o : Options.t) : ostream * Z + Options.t :=
  match results with
  | []%list => inr o
  | ((i, optarg) :: rest)%list =>
      if Ascii.eqb i "l" then
        processOptions version rest
          (Options.make true (Options.shouldFindDuplicates o)
                        (Options.patchToDisplay o))
      else if Ascii.eqb i "f" then
        processOptions version rest
          (Options.make (Options.displayLongListing o) true
                        (Options.patchToDisplay o))
      else if Ascii.eqb i "p" then
        processOptions version rest
          (Options.make true (Options.shouldFindDuplicates o) (to_int optarg))
      else if Ascii.eqb i "v" then inl (version_text version, 0)
      else if Ascii.eqb i "h" then inl (help_text, 0)
      else inl ([ Line msg_unexpected ]%list, 1)
  end.

(** The whole of [main]: [args] are the arguments left after the options. *)
Definition dx7dump (results : list (ascii * Z)) (args : list string)
    (open_file : string -> string + list byte) : ostream * Z :=
  let version := "1.01" in
  match processOptions version results (Options.make false false (-1)) with
  | inl stopped => stopped
  | inr o =>
      match args with
      | []%list => ([ Line "Error: Please specify a sysex file." ]%list, 1)
      | (filename :: _)%list =>
          match open_file filename with
          | inl strerror =>
              ([ Line ("Error: Can't open " ++ filename ++ ": " ++ strerror) ]
               %list, 1)
          | inr buffer =>
              main (Options.displayLongListing o)
                   (Options.shouldFindDuplicates o)
                   (Options.patchToDisplay o) filename buffer
          end
      end
  end.

(** ** The bits the listing reads

    For each byte of an operator and of a voice, the bits that belong to a
    declared field; the other bits are the unnamed bit-fields. *)

Definition operator_mask (k : nat) : Z :=
  match k with
  | 11%nat => 0x0F
  | 12%nat => 0x7F
  | 13%nat => 0x1F
  | 15%nat => 0x3F
  | _ => 0xFF
  end.

Definition voice_mask (k : nat) : Z :=
  if (k <? 102)%nat then operator_mask (k mod 17)
  else match k with
       | 110%nat => 0x1F
       | 111%nat => 0x0F
       | _ => 0xFF
       end.

(** Two records agree on their declared fields up to offset [n]. *)
Definition same_fields (n : nat) (a b : list byte) : Prop :=
  forall k : nat,
    (k < n)%nat ->
    Z.land (u8 (at_index a k)) (voice_mask k)
    = Z.land (u8 (at_index b k)) (voice_mask k).

(** The byte of value [z], for [z] below 256. *)
Definition byte_of_Z (z : Z) : byte :=
  match Byte.of_N (Z.to_N z) with
  | Some b => b
  | None => x00
  end.

(** A file system with one file. *)
Definition one_file (name : string) (contents : list byte)
    (filename : string) : string + list byte :=
  if String.eqb filename name then inr contents
  else inl "No such file or directory".

(** A valid bank whose first two voices differ only by the three unnamed
    bits of the algorithm byte. *)
Definition padded_bank : list byte :=
  bank (repeat x00 110 ++ xe0 :: repeat x00 17
        ++ repeat x00 (31 * 128))%list
       x20.

(** The value a transpose text or a break-point text stands for: the first
    value of the range that is written so. *)
Definition transpose_value (s : string) : option Z :=
  find (fun x => String.eqb (transpose x) s) (map Z.of_nat (seq 0 49)).

Definition breakPoint_value (s : string) : option Z :=
  find (fun x => String.eqb (breakPoint x) s) (map Z.of_nat (seq 0 100)).

(** The pair of voices a line of the report of duplicates names, if any. *)
Definition duplicate_pair_of (r : record) : option (nat * nat) :=
  match r with
  | Line text =>
      find (fun q => String.eqb text (msg_duplicates (fst q) (snd q)))
           voice_pairs
  | FixedFrequency _ _ => None
  end.

(** The options [processOptions] goes on after: [-l], [-f] and [-p]. *)
Definition is_flag (i : ascii) : bool :=
  Ascii.eqb i "l" || Ascii.eqb i "f" || Ascii.eqb i "p".

(** The patch number left by a sequence of options: the one of the last
    [-p], or [default]. *)
Definition last_patch (results : list (ascii * Z)) (default : Z) : Z :=
  fold_left
    (fun acc r => if Ascii.eqb (fst r) "p" then to_int (snd r) else acc)
    results default.

(** What [processOptions] writes and the status it exits with on an option
    other than [-l], [-f] and [-p]. *)
Definition stop_at (version : string) (i : ascii) : ostream * Z :=
  if Ascii.eqb i "v" then (version_text version, 0)
  else if Ascii.eqb i "h" then (help_text, 0)
  else ([ Line msg_unexpected ]%list, 1).

(** A valid bank whose voice [i] starts with the byte [i]: no two voices
    have the same parameters. *)
Definition distinct_bank : list byte :=
  bank (flat_map (fun i => byte_of_Z (Z.of_nat i) :: repeat x00 127) (seq 0 32))
       x10.

(** * Properties *)

(** ** Bytes and buffers *)

Lemma u8_range (b : byte) : 0 <= u8 b < 256.
Proof.
  unfold u8. pose proof (Byte.to_N_bounded b). lia.
Qed.

Lemma skipn_cons_at (p : list byte) :
  forall (i : nat) (b : byte) (q : list byte),
    skipn i p = b :: q -> at_index p i = b /\ skipn (S i) p = q.
Proof.
  induction p as [|a p IH]; intros i b q H.
  - destruct i; discriminate H.
  - destruct i as [|i].
    + simpl in H. injection H as -> ->. split; reflexivity.
    + apply (IH i b q H).
Qed.

Lemma skipn_nil_at (p : list byte) :
  forall i : nat, skipn i p = [] -> at_index p i = x00 /\ skipn (S i) p = [].
Proof.
  induction p as [|a p IH]; intros i H.
  - destruct i; split; reflexivity.
  - destruct i as [|i].
    + discriminate H.
    + apply (IH i H).
Qed.

(** ** The checksum *)

Lemma checksum_loop_masked_sum (p : list byte) :
  forall (n i : nat) (sum : Z),
    to_uchar (checksum_loop p n i sum)
    = to_uchar (sum + masked_sum (slice i n p)).
Proof.
  unfold slice.
  induction n as [|n IH]; intros i sum.
  - simpl. f_equal. lia.
  - cbn [checksum_loop]. rewrite IH.
    destruct (skipn i p) as [|b q] eqn:E.
    + destruct (skipn_nil_at p i E) as [-> ->].
      rewrite !firstn_nil. cbn [masked_sum fold_right].
      replace (Z.land (u8 x00) 127) with 0 by reflexivity.
      unfold to_uchar. rewrite !Z.add_0_r.
      apply Z.mod_mod. lia.
    + destruct (skipn_cons_at p i b q E) as [-> ->].
      cbn [firstn masked_sum fold_right]. fold (masked_sum (firstn n q)).
      unfold to_uchar.
      rewrite Zplus_mod_idemp_l. f_equal. lia.
Qed.

Lemma checksum_loop_range (p : list byte) (n i : nat) :
  0 <= checksum_loop p (S n) i 0 < 256.
Proof.
  assert (G : forall n i sum, 0 <= sum < 256 ->
                              0 <= checksum_loop p n i sum < 256).
  { clear. induction n as [|n IH]; intros i sum H; [exact H|].
    cbn [checksum_loop]. apply IH. unfold to_uchar.
    apply Z.mod_pos_bound. lia. }
  apply G. lia.
Qed.

Lemma twos_complement_mask7 (p : list byte) (n : nat) :
  Z.land (to_uchar (Z.lnot (checksum_loop p n 0 0) + 1)) 0x7F
  = Z.land (Z.lnot (masked_sum (firstn n p)) + 1) 0x7F.
Proof.
  pose proof (checksum_loop_masked_sum p n 0 0) as H.
  unfold slice in H. rewrite Z.add_0_l in H. cbn [skipn] in H.
  set (s8 := checksum_loop p n 0 0) in *.
  set (s := masked_sum (firstn n p)) in *.
  unfold to_uchar in *.
  change 127 with (Z.ones 7). rewrite !Z.land_ones by lia.
  replace (Z.lnot s8 + 1) with (- s8) by (unfold Z.lnot; lia).
  replace (Z.lnot s + 1) with (- s) by (unfold Z.lnot; lia).
  change (2 ^ 7) with 128.
  rewrite Z.mod_mod_divide by (exists 2; reflexivity).
  assert (E : s8 mod 128 = s mod 128).
  { apply (f_equal (fun z => z mod 128)) in H.
    rewrite !Z.mod_mod_divide in H by (exists 2; reflexivity). exact H. }
  rewrite <- (Z.sub_0_l s8), <- (Z.sub_0_l s).
  rewrite <- (Zminus_mod_idemp_r 0 s8), E, Zminus_mod_idemp_r. reflexivity.
Qed.

(** The checksum [verify] computes with an 8-bit accumulator is the one of
    the specification, computed on the unbounded sum. *)
Lemma computed_checksum_recompute (sysex : list byte) :
  computed_checksum sysex = recomputeChecksum (payload sysex).
Proof.
  exact (twos_complement_mask7 (skipn 6 sysex) 4096).
Qed.

Lemma recomputeChecksum_range (p : list byte) :
  0 <= recomputeChecksum p < 128.
Proof.
  unfold recomputeChecksum. change 127 with (Z.ones 7).
  rewrite Z.land_ones by lia. apply Z.mod_pos_bound. lia.
Qed.

(** ** [verify] against the specification's validator *)

Lemma verify_validate (sysex : list byte) : verify sysex = validate sysex.
Proof.
  unfold verify, validate, check_order.
  cbn [find passes reason]. cbv zeta.
  rewrite computed_checksum_recompute.
  rewrite (Z.eqb_sym (recomputeChecksum (payload sysex))).
  destruct (DX7Sysex.sysexBeginF0 sysex =? 240); [|reflexivity].
  destruct (DX7Sysex.yamaha43 sysex =? 67); [|reflexivity].
  destruct (DX7Sysex.subStatusAndChannel sysex =? 0); [|reflexivity].
  destruct (DX7Sysex.format9 sysex =? 9); [|reflexivity].
  destruct (DX7Sysex.sizeMsb sysex =? 32); [|reflexivity].
  destruct (DX7Sysex.sizeLsb sysex =? 0); [|reflexivity].
  destruct (DX7Sysex.sysexEndF7 sysex =? 247); [|reflexivity].
  destruct (DX7Sysex.checksum sysex =? recomputeChecksum (payload sysex));
    reflexivity.
Qed.

(** [verify] returns 0 exactly when every check passes. *)
Lemma verify_accepts (sysex : list byte) :
  snd (verify sysex) = 0 <-> forallb (passes sysex) check_order = true.
Proof.
  rewrite verify_validate. unfold validate, check_order.
  cbn [find forallb].
  destruct (passes sysex StartMarker); [|cbn; split; discriminate].
  destruct (passes sysex VendorMarker); [|cbn; split; discriminate].
  destruct (passes sysex SubStatus); [|cbn; split; discriminate].
  destruct (passes sysex FormatCode); [|cbn; split; discriminate].
  destruct (passes sysex SizeBytes); [|cbn; split; discriminate].
  destruct (passes sysex EndMarker); [|cbn; split; discriminate].
  destruct (passes sysex Checksum); cbn; split; congruence.
Qed.

(** The fields of a well-formed bank. *)
Lemma payload_bank (body : list byte) (sum : byte) :
  List.length body = 4096%nat -> payload (bank body sum) = body.
Proof.
  intros H. unfold payload, slice, bank, header.
  cbn [skipn app]. rewrite <- H.
  rewrite firstn_app, Nat.sub_diag, firstn_all. cbn [firstn].
  apply app_nil_r.
Qed.

Lemma checksum_bank (body : list byte) (sum : byte) :
  List.length body = 4096%nat -> DX7Sysex.checksum (bank body sum) = u8 sum.
Proof.
  intros H. unfold DX7Sysex.checksum, at_index, bank, header. f_equal.
  change 4102%nat with (6 + 4096)%nat.
  cbn [app Nat.add nth]. rewrite <- H.
  rewrite app_nth2 by apply Nat.le_refl.
  rewrite Nat.sub_diag. reflexivity.
Qed.

Lemma end_bank (body : list byte) (sum : byte) :
  List.length body = 4096%nat -> DX7Sysex.sysexEndF7 (bank body sum) = 0xF7.
Proof.
  intros H. unfold DX7Sysex.sysexEndF7, at_index, bank, header.
  change 4103%nat with (6 + S 4096)%nat.
  cbn [app Nat.add nth]. rewrite <- H.
  rewrite app_nth2 by apply Nat.le_succ_diag_r.
  rewrite Nat.sub_succ_l, Nat.sub_diag by apply Nat.le_refl. reflexivity.
Qed.

(** C1.  For every payload of 4096 bytes and every stored checksum byte, the
    validator accepts the bank made of them if and only if the stored byte is
    the two's complement of the sum of the payload bytes, each masked to its
    low 7 bits, the result masked to 7 bits.  And recomputing the checksum
    over the payload of any message the validator accepts gives the stored
    checksum byte. *)
Theorem checksum_accepted_iff_recomputed :
  (forall (body : list byte) (stored : byte),
      List.length body = 4096%nat ->
      (snd (verify (bank body stored)) = 0
       <-> u8 stored = recomputeChecksum body))
  /\ (forall sysex : list byte,
         List.length sysex = DX7Sysex.sizeof ->
         snd (verify sysex) = 0 ->
         recomputeChecksum (payload sysex) = DX7Sysex.checksum sysex).
Proof.
  split.
  - intros body stored H.
    rewrite verify_accepts. unfold check_order. cbn [forallb passes].
    rewrite (end_bank body stored H), (checksum_bank body stored H),
      (payload_bank body stored H).
    change (DX7Sysex.sysexBeginF0 (bank body stored)) with 0xF0.
    change (DX7Sysex.yamaha43 (bank body stored)) with 0x43.
    change (DX7Sysex.subStatusAndChannel (bank body stored)) with 0x00.
    change (DX7Sysex.format9 (bank body stored)) with 0x09.
    change (DX7Sysex.sizeMsb (bank body stored)) with 0x20.
    change (DX7Sysex.sizeLsb (bank body stored)) with 0x00.
    cbn [Z.eqb Pos.eqb andb].
    rewrite andb_true_r. apply Z.eqb_eq.
  - intros sysex _ H.
    apply verify_accepts in H. rewrite forallb_forall in H.
    specialize (H Checksum). cbn [passes] in H.
    symmetry. apply Z.eqb_eq, H.
    unfold check_order. cbn [In]. tauto.
Qed.

Lemma checksum_accepted_iff_recomputed_witness :
  snd (verify one_bank) = 0
  /\ recomputeChecksum (payload one_bank) = DX7Sysex.checksum one_bank.
Proof.
  assert (A : snd (verify one_bank) = 0).
  { apply (proj1 checksum_accepted_iff_recomputed
             (x01 :: repeat x00 4095) x7f);
      vm_compute; reflexivity. }
  split; [exact A|].
  apply (proj2 checksum_accepted_iff_recomputed one_bank);
    [vm_compute; reflexivity | exact A].
Defined.

(** ** The order of the checks *)

Lemma reasons_distinct (sysex : list byte) :
  NoDup (map (reason sysex) check_order).
Proof.
  unfold check_order. cbn [map reason].
  repeat constructor; cbn [In]; intros H;
    repeat (destruct H as [H|H]; [discriminate H|]); exact H.
Qed.

Lemma find_first_failing (f : check -> bool) (c : check) (post : list check) :
  forall pre : list check,
    forallb f pre = true -> f c = false ->
    find (fun c => negb (f c)) (pre ++ c :: post) = Some c.
Proof.
  induction pre as [|a pre IH]; intros Hpre Hc; cbn [app find].
  - rewrite Hc. reflexivity.
  - cbn [forallb] in Hpre. apply andb_true_iff in Hpre.
    destruct Hpre as [Ha Hpre]. rewrite Ha. cbn [negb].
    apply IH; assumption.
Qed.

(** C2, amended.  [verify] reports the first failing check of the seven, in
    the order start marker, vendor marker, sub-status, format code, size
    bytes, end marker, checksum: whenever the checks before [c] pass and [c]
    fails, the output is the reason of [c] alone and the result is 1; with no
    failing check nothing is written and the result is 0.  The seven reasons
    are pairwise distinct.  In particular a buffer that passes the
    start-marker check and fails both the vendor-marker check and the
    checksum check reports the vendor-marker error. *)
Theorem verify_reports_first_failure (sysex : list byte) :
  verify sysex = validate sysex
  /\ (forall (pre : list check) (c : check) (post : list check),
         check_order = (pre ++ c :: post)%list ->
         forallb (passes sysex) pre = true ->
         passes sysex c = false ->
         verify sysex = ([Line (reason sysex c)], 1))
  /\ (forallb (passes sysex) check_order = true -> verify sysex = ([], 0))
  /\ NoDup (map (reason sysex) check_order)
  /\ (DX7Sysex.sysexBeginF0 sysex = 0xF0 ->
      DX7Sysex.yamaha43 sysex <> 0x43 ->
      computed_checksum sysex <> DX7Sysex.checksum sysex ->
      verify sysex = ([Line msg_yamaha], 1)).
Proof.
  split; [apply verify_validate|].
  assert (G : forall pre c post,
             check_order = (pre ++ c :: post)%list ->
             forallb (passes sysex) pre = true ->
             passes sysex c = false ->
             verify sysex = ([Line (reason sysex c)], 1)).
  { intros pre c post E Hpre Hc.
    rewrite verify_validate. unfold validate. rewrite E.
    rewrite (find_first_failing (passes sysex) c post pre Hpre Hc).
    reflexivity. }
  split; [exact G|].
  split.
  { intros H. rewrite verify_validate. unfold validate.
    destruct (find _ check_order) as [c|] eqn:E; [|reflexivity].
    apply find_some in E. destruct E as [Hin Hc].
    rewrite forallb_forall in H. rewrite (H c Hin) in Hc. discriminate Hc. }
  split; [apply reasons_distinct|].
  intros Hstart Hvendor _.
  apply (G [StartMarker] VendorMarker
           [SubStatus; FormatCode; SizeBytes; EndMarker; Checksum]).
  - reflexivity.
  - cbn [forallb passes]. rewrite Hstart. reflexivity.
  - cbn [passes]. apply Z.eqb_neq. exact Hvendor.
Qed.

Lemma verify_reports_first_failure_witness :
  verify vendorless_bank = ([Line msg_yamaha], 1).
Proof.
  apply (proj2 (proj2 (proj2 (proj2
           (verify_reports_first_failure vendorless_bank)))));
    vm_compute; congruence.
Defined.

(** C2 as it is worded fails on a buffer that also lacks the start marker:
    the vendor-marker check and the checksum check both fail, and the error
    reported is the one of the start marker. *)
Lemma vendor_and_checksum_counterexample :
  DX7Sysex.yamaha43 unmarked_bank <> 0x43
  /\ computed_checksum unmarked_bank <> DX7Sysex.checksum unmarked_bank
  /\ verify unmarked_bank = ([Line msg_start], 1)
  /\ verify unmarked_bank <> ([Line msg_yamaha], 1).
Proof.
  repeat split; vm_compute; congruence.
Qed.

(** ** Note names: [transpose] and [breakPoint] *)

(** A decidable property checked on every value below [n] holds below [n]. *)
Lemma Z_forall_below (P : Z -> bool) (n : nat) :
  forallb P (map Z.of_nat (seq 0 n)) = true ->
  forall x : Z, 0 <= x < Z.of_nat n -> P x = true.
Proof.
  intros H x Hx. rewrite forallb_forall in H. apply H.
  rewrite <- (Z2Nat.id x) by lia.
  apply in_map, in_seq. lia.
Qed.

(** C4.  For a transpose value from 0 to 48 the text in parentheses is the
    note name at index [x mod 12] of the note table followed by the octave
    [x / 12 + 1]; above 48 it is the out-of-range text.  So 0 gives C1, 12
    gives C2, 48 gives C5 and 49 is out of range. *)
Theorem transpose_note_and_octave :
  (forall x : Z,
      0 <= x <= 48 ->
      transpose x
      = nth (Z.to_nat (x mod 12)) notes "" ++ put_unsigned (x / 12 + 1))
  /\ (forall x : Z, 48 < x -> transpose x = "*out of range*")
  /\ transpose 0 = "C1"
  /\ transpose 12 = "C2"
  /\ transpose 48 = "C5"
  /\ transpose 49 = "*out of range*"
  /\ (forall (filename : string) (voiceNumber : nat) (voice : list byte),
         nth 25 (format_voice_fields filename voiceNumber voice) (Line "")
         = Line ("Transpose: " ++ put02 (VoicePacked.transpose voice)
                 ++ " (" ++ transpose (VoicePacked.transpose voice) ++ ")")).
Proof.
  split; [|split; [|split; [|split; [|split; [|split]]]]];
    try reflexivity.
  - intros x Hx. apply String.eqb_eq.
    apply (Z_forall_below
             (fun x => String.eqb (transpose x)
                         (nth (Z.to_nat (x mod 12)) notes ""
                          ++ put_unsigned (x / 12 + 1))) 49).
    + vm_compute. reflexivity.
    + lia.
  - intros x Hx. unfold transpose.
    destruct (48 <? x) eqn:E; [reflexivity|].
    apply Z.ltb_ge in E. lia.
Qed.

Lemma transpose_note_and_octave_witness :
  transpose 37 = "C#" ++ "4" /\ transpose 200 = "*out of range*".
Proof.
  split.
  - apply (proj1 transpose_note_and_octave 37). lia.
  - apply (proj1 (proj2 transpose_note_and_octave) 200). lia.
Defined.

(** C5.  For a break point from 0 to 99 the text in parentheses is the note
    name at index [(x + 9) mod 12] of the note table followed by the octave
    [(x - 3 + 12) / 12 - 1], the division being the one of signed integers;
    above 99 it is the out-of-range text.  So 0 gives A-1.  The text stands
    in parentheses on the "Break Point:" line of an operator. *)
Theorem breakPoint_note_and_octave :
  (forall x : Z,
      0 <= x <= 99 ->
      breakPoint x
      = nth (Z.to_nat ((x + 9) mod 12)) notes ""
        ++ put_int (Z.quot (x - 3 + 12) 12 - 1))
  /\ (forall x : Z, 99 < x -> breakPoint x = "*out of range*")
  /\ breakPoint 0 = "A-1"
  /\ (forall op : list byte,
         nth 10 (format_operator_fields op) (Line "")
         = Line ("    Break Point: "
                 ++ put02 (OperatorPacked.levelScaleBreakPoint op)
                 ++ " (" ++ breakPoint (OperatorPacked.levelScaleBreakPoint op)
                 ++ ")")).
Proof.
  split; [|split; [|split; reflexivity]].
  - intros x Hx. apply String.eqb_eq.
    apply (Z_forall_below
             (fun x => String.eqb (breakPoint x)
                         (nth (Z.to_nat ((x + 9) mod 12)) notes ""
                          ++ put_int (Z.quot (x - 3 + 12) 12 - 1))) 100).
    + vm_compute. reflexivity.
    + lia.
  - intros x Hx. unfold breakPoint.
    destruct (99 <? x) eqn:E; [reflexivity|].
    apply Z.ltb_ge in E. lia.
Qed.

Lemma breakPoint_note_and_octave_witness :
  breakPoint 39 = "C" ++ "3" /\ breakPoint 100 = "*out of range*".
Proof.
  split.
  - apply (proj1 breakPoint_note_and_octave 39). lia.
  - apply (proj1 (proj2 breakPoint_note_and_octave) 100). lia.
Defined.

(** ** Bit-fields *)

Lemma bitfield_range (b : byte) (shift width : Z) :
  0 <= width -> 0 <= bitfield b shift width < 2 ^ width.
Proof.
  intros H. unfold bitfield. rewrite Z.land_ones by exact H.
  apply Z.mod_pos_bound. apply Z.pow_pos_nonneg; lia.
Qed.

Lemma bitfield_1 (b : byte) (shift : Z) :
  bitfield b shift 1 = 0 \/ bitfield b shift 1 = 1.
Proof.
  pose proof (bitfield_range b shift 1 ltac:(lia)) as H.
  change (2 ^ 1) with 2 in H. lia.
Qed.

(** C10.  The two key-sync fields are one bit wide, so whatever the bytes of
    the voice they decode to 0 or 1, [onOff] never gives the out-of-range
    text for them, and the two lines of the listing end in (Off) or (On). *)
Theorem key_sync_on_or_off (filename : string) (voiceNumber : nat)
    (voice : list byte) :
  let fields := format_voice_fields filename voiceNumber voice in
  (VoicePacked.oscillatorKeySync voice = 0
   \/ VoicePacked.oscillatorKeySync voice = 1)
  /\ (VoicePacked.lfoKeySync voice = 0 \/ VoicePacked.lfoKeySync voice = 1)
  /\ onOff (VoicePacked.oscillatorKeySync voice) <> "*out of range*"
  /\ onOff (VoicePacked.lfoKeySync voice) <> "*out of range*"
  /\ (nth 16 fields (Line "") = Line "Oscillator Key Sync: 00 (Off)"
      \/ nth 16 fields (Line "") = Line "Oscillator Key Sync: 01 (On)")
  /\ (nth 22 fields (Line "") = Line "  Key Sync: 00 (Off)"
      \/ nth 22 fields (Line "") = Line "  Key Sync: 01 (On)").
Proof.
  cbv zeta. unfold format_voice_fields. cbn [nth].
  assert (A := bitfield_1 (at_index voice 111) 3).
  assert (B := bitfield_1 (at_index voice 116) 0).
  fold (VoicePacked.oscillatorKeySync voice) in A.
  fold (VoicePacked.lfoKeySync voice) in B.
  repeat split; try assumption.
  - destruct A as [-> | ->]; discriminate.
  - destruct B as [-> | ->]; discriminate.
  - destruct A as [-> | ->]; [left | right]; reflexivity.
  - destruct B as [-> | ->]; [left | right]; reflexivity.
Qed.

(** ** The operators of a voice *)

Lemma at_index_slice (p : list byte) (off len k : nat) :
  (k < len)%nat -> at_index (slice off len p) k = at_index p (off + k).
Proof.
  intros H. unfold at_index, slice.
  rewrite nth_firstn.
  apply Nat.ltb_lt in H. rewrite H.
  apply nth_skipn.
Qed.

(** C3.  In the long listing of a voice, after the 26 records of the fields
    of the voice itself, the 25 records of the [i]-th operator block (from
    0) are the heading "Operator i+1" and the listing of
    the operator record at slot [5 - i] of the voice, that is of the 17 bytes
    of the voice from offset [17 * (5 - i)] on.  Operator 1 is thus read from
    slot 5, the bytes 85 to 101 of the voice. *)
Theorem operator_block_reads_reverse_slot (filename : string)
    (voiceNumber : nat) (voice : list byte) (i : nat) :
  (i < 6)%nat ->
  slice (26 + 25 * i) 25 (format_voice filename true voiceNumber voice)
  = (Line "" :: Line ("Operator " ++ put02 (Z.of_nat i + 1) ++ ": ")
       :: format_operator_fields (VoicePacked.operators voice (5 - i)))%list
  /\ VoicePacked.operators voice (5 - i) = slice (17 * (5 - i)) 17 voice
  /\ (forall k : nat,
         (k < 17)%nat ->
         at_index (VoicePacked.operators voice (5 - i)) k
         = at_index voice (17 * (5 - i) + k)).
Proof.
  intros H. split; [|split].
  - do 6 (destruct i as [|i]; [reflexivity|]). lia.
  - reflexivity.
  - intros k Hk. apply at_index_slice. exact Hk.
Qed.

Lemma operator_block_reads_reverse_slot_witness :
  slice 26 25 (format_voice "bank.syx" true 0 ramp_voice)
  = (Line "" :: Line "Operator 01: "
       :: format_operator_fields (VoicePacked.operators ramp_voice 5))%list
  /\ nth 3 (slice 26 25 (format_voice "bank.syx" true 0 ramp_voice)) (Line "")
     = Line "    Rate 1: 85".
Proof.
  split.
  - apply (proj1 (operator_block_reads_reverse_slot
                    "bank.syx" 0 ramp_voice 0 ltac:(lia))).
  - reflexivity.
Defined.

(** ** Numbers in the long listing *)

Lemma append_empty_r (s : string) : s ++ "" = s.
Proof.
  induction s as [|c s IH]; cbn; [reflexivity | rewrite IH; reflexivity].
Qed.

(** [put02] writes a byte value as its decimal numeral, on two digits below
    100. *)
Lemma put02_decimal (n : Z) :
  0 <= n < 256 ->
  decimal_value (put02 n) = Some n
  /\ (n < 100 -> String.length (put02 n) = 2%nat).
Proof.
  intros H.
  pose proof (Z_forall_below
                (fun n =>
                   match decimal_value (put02 n) with
                   | Some m => m =? n
                   | None => false
                   end
                   && ((100 <=? n) || (String.length (put02 n) =? 2)%nat))
                256 ltac:(vm_compute; reflexivity) n H) as G.
  cbv beta in G. apply andb_true_iff in G. destruct G as [G1 G2].
  split.
  - destruct (decimal_value (put02 n)) as [m|]; [|discriminate G1].
    apply Z.eqb_eq in G1. rewrite G1. reflexivity.
  - intros Hn. apply orb_true_iff in G2. destruct G2 as [G2|G2].
    + apply Z.leb_le in G2. lia.
    + apply Nat.eqb_eq in G2. exact G2.
Qed.

(** Finds the line of a field in a listing: first without annotation, then
    with one. *)
Ltac find_line :=
  solve [cbn [In]; repeat first [left; reflexivity | right]].

Ltac show_field :=
  unfold shows; cbn [fst snd];
  first [ left; find_line | right; eexists; find_line ].

Lemma voice_fields_shown (filename : string) (voiceNumber : nat)
    (voice : list byte) :
  Forall (fun lf => shows (format_voice_fields filename voiceNumber voice)
                          (fst lf) (snd lf voice))
         voice_numeric_fields.
Proof.
  unfold voice_numeric_fields, format_voice_fields.
  repeat (apply Forall_cons; [show_field|]). apply Forall_nil.
Qed.

Lemma operator_fields_shown (op : list byte) :
  Forall (fun lf => shows (format_operator_fields op) (fst lf) (snd lf op))
         operator_numeric_fields.
Proof.
  unfold operator_numeric_fields, format_operator_fields.
  repeat (apply Forall_cons; [show_field|]). apply Forall_nil.
Qed.

(** In fixed mode the coarse value is not listed: the frequency record is
    the fixed-mode one and no line bears the label of the frequency line. *)
Lemma coarse_not_listed_in_fixed_mode (op : list byte) :
  OperatorPacked.oscillatorMode op = 1 ->
  nth 20 (format_operator_fields op) (Line "")
  = FixedFrequency (OperatorPacked.frequencyCoarse op mod 4)
                   (OperatorPacked.frequencyFine op)
  /\ forall text : string,
       ~ In (Line ("  Frequency Course: " ++ text)) (format_operator_fields op).
Proof.
  intros M.
  pose proof (bitfield_range (at_index op 15) 1 5 ltac:(lia)) as R.
  fold (OperatorPacked.frequencyCoarse op) in R.
  split.
  - unfold format_operator_fields. cbn [nth]. rewrite M. cbn [Z.eqb].
    rewrite Z.rem_mod_nonneg by lia. reflexivity.
  - intros text H. unfold format_operator_fields in H. rewrite M in H.
    cbn [Z.eqb In] in H.
    repeat (destruct H as [H | H]; [discriminate H|]). exact H.
Qed.

(** *** A line pins the number it shows *)

Lemma after_label_append (label rest : string) :
  after_label label (label ++ rest) = Some rest.
Proof.
  induction label as [|c label IH]; cbn [append after_label];
    [destruct rest; reflexivity|].
  rewrite Ascii.eqb_refl. exact IH.
Qed.

Lemma leading_digits_append (d rest : string) :
  forallb is_digit (list_ascii_of_string d) = true ->
  leading_digits rest = "" ->
  leading_digits (d ++ rest) = d.
Proof.
  intros D R. induction d as [|c d IH]; cbn [append]; [exact R|].
  cbn [list_ascii_of_string forallb] in D. apply andb_true_iff in D.
  destruct D as [Dc D]. cbn [leading_digits]. rewrite Dc, (IH D).
  reflexivity.
Qed.

Lemma put02_digits (n : Z) :
  0 <= n < 256 -> forallb is_digit (list_ascii_of_string (put02 n)) = true.
Proof.
  intros H.
  exact (Z_forall_below
           (fun n => forallb is_digit (list_ascii_of_string (put02 n)))
           256 ltac:(vm_compute; reflexivity) n H).
Qed.

Lemma shows_pins_number (text label : string) (n : Z) :
  0 <= n < 256 ->
  shows [Line text]%list label n -> number_under label text = Some n.
Proof.
  intros Hn [H | [note H]]; cbn [In] in H;
    destruct H as [H | []]; injection H as ->; unfold number_under;
    rewrite after_label_append.
  - rewrite <- (append_empty_r (put02 n)) at 1.
    rewrite leading_digits_append by (try apply put02_digits; auto).
    apply put02_decimal, Hn.
  - rewrite leading_digits_append by (try apply put02_digits; auto).
    apply put02_decimal, Hn.
Qed.

Example line_shows_one_number :
  shows [Line "  Rate 1: 100"]%list "  Rate 1: " 100
  /\ ~ shows [Line "  Rate 1: 100"]%list "  Rate 1: " 10.
Proof.
  split; [left; left; reflexivity|].
  intros H. apply shows_pins_number in H; [|lia]. discriminate H.
Qed.

(** C9, amended.  The "Algorithm:" line of the long listing shows the decoded
    5-bit algorithm field plus one, a number from 1 to 32 written on two
    digits.  Every other raw numeric field of a voice and of an operator is
    shown on its line as its decoded value in a zero-filled field of width 2,
    followed by nothing or by an annotation in parentheses, with one
    exception: the frequency-coarse field is shown so in ratio mode only, and
    in fixed mode the frequency line is the fixed-mode frequency and no line
    lists the coarse value.  The voice number and the operator numbers are
    written the same way.  Such a numeral denotes the value, on exactly two
    digits when the value is below 100, and a line shows one number only:
    the one read after its label. *)
Theorem algorithm_line_is_field_plus_one (filename : string)
    (voiceNumber : nat) (voice : list byte) :
  let fields := format_voice_fields filename voiceNumber voice in
  let printed := put02 (VoicePacked.algorithm voice + 1) in
  nth 5 fields (Line "") = Line ("Algorithm: " ++ printed)
  /\ 0 <= VoicePacked.algorithm voice < 32
  /\ String.length printed = 2%nat
  /\ decimal_value printed = Some (VoicePacked.algorithm voice + 1)
  /\ Forall (fun lf => shows fields (fst lf) (snd lf voice))
            voice_numeric_fields
  /\ shows fields "Voice: " (Z.of_nat voiceNumber + 1)
  /\ (forall i : nat,
         nth 1 (format_operator voice i) (Line "")
         = Line ("Operator " ++ put02 (Z.of_nat i + 1) ++ ": "))
  /\ (forall op : list byte,
         Forall (fun lf => shows (format_operator_fields op) (fst lf)
                                 (snd lf op))
                operator_numeric_fields)
  /\ (forall op : list byte,
         OperatorPacked.oscillatorMode op = 0
         \/ OperatorPacked.oscillatorMode op = 1)
  /\ (forall op : list byte,
         OperatorPacked.oscillatorMode op = 0 ->
         shows (format_operator_fields op) "  Frequency Course: "
               (OperatorPacked.frequencyCoarse op))
  /\ (forall op : list byte,
         OperatorPacked.oscillatorMode op = 1 ->
         nth 20 (format_operator_fields op) (Line "")
         = FixedFrequency (OperatorPacked.frequencyCoarse op mod 4)
                          (OperatorPacked.frequencyFine op)
         /\ forall text : string,
              ~ In (Line ("  Frequency Course: " ++ text))
                   (format_operator_fields op))
  /\ (forall n : Z,
         0 <= n < 256 ->
         decimal_value (put02 n) = Some n
         /\ (n < 100 -> String.length (put02 n) = 2%nat))
  /\ (forall (text label : string) (n : Z),
         0 <= n < 256 ->
         shows [Line text]%list label n -> number_under label text = Some n).
Proof.
  cbv zeta.
  pose proof (bitfield_range (at_index voice 110) 0 5 ltac:(lia)) as R.
  fold (VoicePacked.algorithm voice) in R. change (2 ^ 5) with 32 in R.
  destruct (put02_decimal (VoicePacked.algorithm voice + 1) ltac:(lia))
    as [D L].
  split; [reflexivity|].
  split; [exact R|].
  split; [apply L; lia|].
  split; [exact D|].
  split; [apply voice_fields_shown|].
  split; [unfold format_voice_fields; show_field|].
  split; [intros i; reflexivity|].
  split; [apply operator_fields_shown|].
  split; [intros op; apply bitfield_1|].
  split.
  { intros op H. unfold format_operator_fields. rewrite H.
    cbn [Z.eqb]. show_field. }
  split; [apply coarse_not_listed_in_fixed_mode|].
  split; [apply put02_decimal | apply shows_pins_number].
Qed.

Lemma algorithm_line_is_field_plus_one_witness :
  shows (format_operator_fields (VoicePacked.operators ramp_voice 5))
        "  Frequency Course: " 18
  /\ nth 20 (format_operator_fields (repeat x00 15 ++ [x0b; x07])%list)
         (Line "")
     = FixedFrequency 1 7
  /\ decimal_value (put02 7) = Some 7
  /\ number_under "  Rate 1: " "  Rate 1: 100" = Some 100.
Proof.
  pose proof (algorithm_line_is_field_plus_one "bank.syx" 0 ramp_voice)
    as [_ [_ [_ [_ [_ [_ [_ [_ [_ [Ratio [Fixed [Dec Pin]]]]]]]]]]]].
  split; [|split; [|split]].
  - apply (Ratio (VoicePacked.operators ramp_voice 5)). reflexivity.
  - apply (Fixed (repeat x00 15 ++ [x0b; x07])%list). reflexivity.
  - apply (Dec 7). lia.
  - apply (Pin "  Rate 1: 100" "  Rate 1: " 100); [lia|].
    left. left. reflexivity.
Defined.

(** C9 as it is worded fails on the voice of zero bytes: its algorithm field
    decodes to 0 and the "Algorithm:" line shows 01; no line shows the
    decoded value under that label. *)
Lemma algorithm_line_counterexample :
  let fields := format_voice_fields "bank.syx" 0 zero_voice in
  VoicePacked.algorithm zero_voice = 0
  /\ nth 5 fields (Line "") = Line "Algorithm: 01"
  /\ decimal_value "01" = Some 1
  /\ ~ shows fields "Algorithm: " (VoicePacked.algorithm zero_voice).
Proof.
  cbv zeta. repeat split.
  intros [H | [note H]]; vm_compute in H;
    repeat (destruct H as [H|H]; [discriminate H|]); exact H.
Qed.

(** ** The patch filter *)

Lemma flat_map_select (g : nat -> ostream) (skip : nat -> bool) (k : nat) :
  (forall v : nat, skip v = negb (v =? k)%nat) ->
  forall n a : nat,
    flat_map (fun v => if skip v then []%list else g v) (seq a n)
    = if ((a <=? k) && (k <? a + n))%nat then g k else []%list.
Proof.
  intros Hskip. induction n as [|n IH]; intros a; cbn [seq flat_map].
  - destruct (a <=? k)%nat eqn:E1; [|reflexivity].
    destruct (k <? a + 0)%nat eqn:E2; [|reflexivity].
    apply Nat.leb_le in E1. apply Nat.ltb_lt in E2. lia.
  - rewrite IH, Hskip.
    destruct (a =? k)%nat eqn:E; cbn [negb].
    + apply Nat.eqb_eq in E. subst a.
      rewrite Nat.leb_refl.
      replace (k <? k + S n)%nat with true
        by (symmetry; apply Nat.ltb_lt; lia).
      replace (S k <=? k)%nat with false
        by (symmetry; apply Nat.leb_gt; lia).
      cbn [andb]. apply app_nil_r.
    + apply Nat.eqb_neq in E. cbn [app].
      destruct (S a <=? k)%nat eqn:E1.
      * apply Nat.leb_le in E1.
        replace (a <=? k)%nat with true by (symmetry; apply Nat.leb_le; lia).
        replace (a + S n)%nat with (S a + n)%nat by lia. reflexivity.
      * apply Nat.leb_gt in E1.
        replace (a <=? k)%nat with false by (symmetry; apply Nat.leb_gt; lia).
        reflexivity.
Qed.

Lemma flat_map_none (f : nat -> ostream) (l : list nat) :
  (forall v : nat, In v l -> f v = []%list) -> flat_map f l = []%list.
Proof.
  induction l as [|a l IH]; intros H; cbn [flat_map]; [reflexivity|].
  rewrite (H a) by (left; reflexivity).
  apply IH. intros v Hv. apply H. right. exact Hv.
Qed.

(** C8, amended.  With the long listing on, a patch number [N] from 1 to 32
    gives the long block of voice [N] and nothing else; [N = 0] and [N > 32]
    give no output at all, and on a valid bank the program then ends with
    status 0; a negative [N] switches the filter off and every one of the 32
    voices is listed. *)
Theorem patch_filter (sysex : list byte) (filename : string) (N : Z) :
  (1 <= N <= 32 ->
   format sysex filename true N
   = format_voice filename true (Z.to_nat (N - 1))
       (DX7Sysex.voices sysex (Z.to_nat (N - 1))))
  /\ (N = 0 \/ 32 < N -> format sysex filename true N = []%list)
  /\ (N = 0 \/ 32 < N ->
      List.length sysex = DX7Sysex.sizeof ->
      snd (verify sysex) = 0 ->
      main true false N filename sysex = ([]%list, 0))
  /\ (N < 0 ->
      format sysex filename true N
      = flat_map
          (fun v => format_voice filename true v (DX7Sysex.voices sysex v))
          (seq 0 32)).
Proof.
  assert (None : N = 0 \/ 32 < N -> format sysex filename true N = []%list).
  { intros H. unfold format. apply flat_map_none.
    intros v Hv. apply in_seq in Hv.
    replace (0 <=? N) with true by (symmetry; apply Z.leb_le; lia).
    replace (N =? Z.of_nat v + 1) with false
      by (symmetry; apply Z.eqb_neq; lia).
    reflexivity. }
  split; [|split; [exact None|split]].
  - intros H. unfold format.
    rewrite (flat_map_select
               (fun v => format_voice filename true v (DX7Sysex.voices sysex v))
               (fun v => (0 <=? N) && negb (N =? Z.of_nat v + 1))
               (Z.to_nat (N - 1))).
    + replace (0 <=? Z.to_nat (N - 1))%nat with true
        by (symmetry; apply Nat.leb_le; lia).
      replace (Z.to_nat (N - 1) <? 0 + 32)%nat with true
        by (symmetry; apply Nat.ltb_lt; lia).
      reflexivity.
    + intros v.
      replace (0 <=? N) with true by (symmetry; apply Z.leb_le; lia).
      cbn [andb]. f_equal.
      destruct (v =? Z.to_nat (N - 1))%nat eqn:E.
      * apply Nat.eqb_eq in E. apply Z.eqb_eq. lia.
      * apply Nat.eqb_neq in E. apply Z.eqb_neq. lia.
  - intros H Hlen Hrc. unfold main.
    rewrite Hlen, Nat.eqb_refl. cbn [negb].
    destruct (verify sysex) as [out rc]. cbn [snd] in Hrc. subst rc.
    cbn [Z.eqb negb]. rewrite (None H). reflexivity.
  - intros H. unfold format. apply flat_map_ext. intros v.
    replace (0 <=? N) with false by (symmetry; apply Z.leb_gt; lia).
    reflexivity.
Qed.

Lemma patch_filter_witness :
  format zero_bank "bank.syx" true 7
  = format_voice "bank.syx" true 6 (DX7Sysex.voices zero_bank 6)
  /\ main true false 33 "bank.syx" zero_bank = ([]%list, 0)
  /\ main true false 0 "bank.syx" zero_bank = ([]%list, 0).
Proof.
  split; [|split].
  - apply (proj1 (patch_filter zero_bank "bank.syx" 7)). lia.
  - apply (proj1 (proj2 (proj2 (patch_filter zero_bank "bank.syx" 33))));
      [right; lia | vm_compute; reflexivity | vm_compute; reflexivity].
  - apply (proj1 (proj2 (proj2 (patch_filter zero_bank "bank.syx" 0))));
      [left; reflexivity | vm_compute; reflexivity | vm_compute; reflexivity].
Defined.

(** C8 as it is worded fails on a negative patch number, which is outside 1
    to 32: the request [-p -5] on the all-zero bank lists the 32 voices, 179
    records each. *)
Lemma negative_patch_counterexample :
  ~ (1 <= -5 <= 32)
  /\ format zero_bank "bank.syx" true (-5) <> []%list
  /\ nth 2 (format zero_bank "bank.syx" true (-5)) (Line "") = Line "Voice: 01"
  /\ List.length (fst (main true false (-5) "bank.syx" zero_bank))
     = (32 * 179)%nat
  /\ snd (main true false (-5) "bank.syx" zero_bank) = 0.
Proof.
  split; [lia|].
  split; [intros H; apply (f_equal (@List.length record)) in H;
          vm_compute in H; discriminate H|].
  split; [vm_compute; reflexivity|].
  split; vm_compute; reflexivity.
Qed.

(** ** [memcmp] *)

Lemma u8_inj (x y : byte) : u8 x = u8 y -> x = y.
Proof.
  unfold u8. intros H. apply N2Z.inj in H.
  pose proof (Byte.of_to_N x) as Hx. rewrite H, Byte.of_to_N in Hx.
  injection Hx as ->. reflexivity.
Qed.

(** [memcmp] gives zero exactly when the compared prefixes are equal. *)
Lemma memcmp_zero :
  forall (n : nat) (a b : list byte),
    (n <= List.length a)%nat -> (n <= List.length b)%nat ->
    (memcmp a b n = 0 <-> firstn n a = firstn n b).
Proof.
  induction n as [|n IH]; intros a b Ha Hb.
  - cbn. tauto.
  - destruct a as [|x a]; [cbn in Ha; lia|].
    destruct b as [|y b]; [cbn in Hb; lia|].
    cbn [memcmp hd tl firstn]. cbn [List.length] in Ha, Hb.
    destruct (u8 x <? u8 y) eqn:E1.
    { apply Z.ltb_lt in E1. split; [discriminate|].
      intros H. injection H as H _. subst y. lia. }
    destruct (u8 y <? u8 x) eqn:E2.
    { apply Z.ltb_lt in E2. split; [discriminate|].
      intros H. injection H as H _. subst y. lia. }
    apply Z.ltb_ge in E1, E2.
    assert (x = y) by (apply u8_inj; lia). subst y.
    rewrite (IH a b) by lia.
    split; [intros ->; reflexivity | intros H; injection H as H; exact H].
Qed.

Lemma firstn_eq_pointwise (n : nat) (a b : list byte) :
  (n <= List.length a)%nat -> (n <= List.length b)%nat ->
  (firstn n a = firstn n b
   <-> forall k : nat, (k < n)%nat -> at_index a k = at_index b k).
Proof.
  intros Ha Hb. unfold at_index. split.
  - intros E k Hk.
    pose proof (nth_firstn n a k x00) as Na.
    pose proof (nth_firstn n b k x00) as Nb.
    apply Nat.ltb_lt in Hk. rewrite Hk in Na, Nb.
    rewrite <- Na, <- Nb, E. reflexivity.
  - intros H. apply (nth_ext _ _ x00 x00).
    + rewrite !length_firstn. lia.
    + intros k Hk. rewrite length_firstn in Hk.
      rewrite !nth_firstn.
      destruct (k <? n)%nat eqn:E; [|reflexivity].
      apply H. apply Nat.ltb_lt. exact E.
Qed.

(** ** The order of the double loop *)

Lemma in_voice_pairs (i j : nat) :
  In (i, j) voice_pairs <-> (i < j < 32)%nat.
Proof.
  unfold voice_pairs. rewrite in_flat_map. split.
  - intros [a [Ha H]]. apply in_seq in Ha. apply in_map_iff in H.
    destruct H as [b [E Hb]]. apply in_seq in Hb.
    injection E as -> ->. lia.
  - intros H. exists i. split; [apply in_seq; lia|].
    apply in_map, in_seq. lia.
Qed.

Lemma StronglySorted_app {A : Type} (R : A -> A -> Prop) (l1 l2 : list A) :
  StronglySorted R l1 -> StronglySorted R l2 ->
  (forall x y : A, In x l1 -> In y l2 -> R x y) ->
  StronglySorted R (l1 ++ l2)%list.
Proof.
  induction l1 as [|a l1 IH]; intros S1 S2 H; [exact S2|].
  apply StronglySorted_inv in S1. destruct S1 as [S1 F1].
  cbn [app]. constructor.
  - apply IH; [exact S1 | exact S2|].
    intros x y Hx Hy. apply H; [right; exact Hx | exact Hy].
  - apply Forall_app. split; [exact F1|].
    apply Forall_forall. intros y Hy. apply H; [left; reflexivity | exact Hy].
Qed.

Lemma StronglySorted_filter {A : Type} (R : A -> A -> Prop) (f : A -> bool)
    (l : list A) :
  StronglySorted R l -> StronglySorted R (filter f l).
Proof.
  induction 1 as [|a l S IH F]; cbn [filter]; [constructor|].
  destruct (f a); [|exact IH].
  constructor; [exact IH|].
  apply Forall_forall. intros y Hy. apply filter_In in Hy.
  rewrite Forall_forall in F. apply F, Hy.
Qed.

Lemma row_sorted (i : nat) :
  forall n a : nat, StronglySorted pair_lt (map (pair i) (seq a n)).
Proof.
  induction n as [|n IH]; intros a; cbn [seq map]; constructor.
  - apply IH.
  - apply Forall_forall. intros [x y] H. apply in_map_iff in H.
    destruct H as [b [E Hb]]. injection E as <- <-. apply in_seq in Hb.
    right. cbn [fst snd]. lia.
Qed.

Lemma rows_sorted (width : nat -> nat) :
  forall n a : nat,
    StronglySorted pair_lt
      (flat_map (fun i => map (pair i) (seq (i + 1) (width i))) (seq a n)).
Proof.
  induction n as [|n IH]; intros a; cbn [seq flat_map]; [constructor|].
  apply StronglySorted_app; [apply row_sorted | apply IH|].
  intros [x y] [x' y'] Hx Hy.
  apply in_map_iff in Hx. destruct Hx as [b [E _]]. injection E as <- _.
  apply in_flat_map in Hy. destruct Hy as [c [Hc Hy]].
  apply in_seq in Hc. apply in_map_iff in Hy.
  destruct Hy as [d [E _]]. injection E as <- _.
  left. cbn [fst]. lia.
Qed.

(** ** The report of [findDuplicates] on a bank *)

Section Duplicates.

Variable sysex : list byte.
Hypothesis sysex_size : List.length sysex = DX7Sysex.sizeof.

Lemma voices_length (i : nat) :
  (i < 32)%nat -> List.length (DX7Sysex.voices sysex i) = 128%nat.
Proof.
  intros Hi.
  unfold DX7Sysex.voices, DX7Sysex.voices_ptr, slice, VoicePacked.sizeof.
  rewrite length_firstn, !length_skipn, sysex_size.
  unfold DX7Sysex.sizeof. lia.
Qed.

Lemma same_parameters_iff (i j : nat) :
  same_parameters sysex (i, j) = true
  <-> firstn 118 (DX7Sysex.voices sysex i)
      = firstn 118 (DX7Sysex.voices sysex j).
Proof.
  unfold same_parameters. cbn [fst snd].
  change (VoicePacked.sizeof - 10)%nat with 118%nat.
  destruct (list_eq_dec _ _ _) as [E|E]; split; intros H;
    try assumption; try reflexivity; try discriminate H.
  contradiction.
Qed.

(** The test of the inner loop is the specification's comparison. *)
Lemma memcmp_same_parameters (i j : nat) :
  (i < 32)%nat -> (j < 32)%nat ->
  (memcmp (DX7Sysex.voices sysex i) (DX7Sysex.voices sysex j)
          (VoicePacked.sizeof - 10) =? 0)
  = same_parameters sysex (i, j).
Proof.
  intros Hi Hj.
  pose proof (voices_length i Hi) as Li.
  pose proof (voices_length j Hj) as Lj.
  change (VoicePacked.sizeof - 10)%nat with 118%nat.
  pose proof (memcmp_zero 118 (DX7Sysex.voices sysex i)
                (DX7Sysex.voices sysex j) ltac:(lia) ltac:(lia)) as M.
  pose proof (same_parameters_iff i j) as S.
  destruct (same_parameters sysex (i, j)).
  - apply Z.eqb_eq, M, S. reflexivity.
  - apply Z.eqb_neq. intros H. apply M, S in H. discriminate H.
Qed.

Lemma inner_loop_filter (i : nat) (l : list nat) :
  (forall j : nat,
      In j l ->
      (memcmp (DX7Sysex.voices sysex i) (DX7Sysex.voices sysex j)
              (VoicePacked.sizeof - 10) =? 0)
      = same_parameters sysex (i, j)) ->
  flat_map
    (fun j =>
       if memcmp (DX7Sysex.voices sysex i) (DX7Sysex.voices sysex j)
                 (VoicePacked.sizeof - 10) =? 0
       then [ Line (msg_duplicates i j) ]%list else []%list) l
  = map duplicate_line (filter (same_parameters sysex) (map (pair i) l)).
Proof.
  induction l as [|j l IH]; intros H; [reflexivity|].
  cbn [flat_map map filter].
  rewrite (H j) by (left; reflexivity).
  rewrite IH by (intros j' Hj'; apply H; right; exact Hj').
  destruct (same_parameters sysex (i, j)); reflexivity.
Qed.

Lemma outer_loop_filter (inner : nat -> ostream)
    (pairs : nat -> list (nat * nat)) (l : list nat) :
  (forall i : nat,
      In i l ->
      inner i = map duplicate_line (filter (same_parameters sysex) (pairs i))) ->
  flat_map inner l
  = map duplicate_line (filter (same_parameters sysex) (flat_map pairs l)).
Proof.
  induction l as [|i l IH]; intros H; [reflexivity|].
  cbn [flat_map]. rewrite filter_app, map_app.
  rewrite (H i) by (left; reflexivity).
  rewrite IH by (intros i' Hi'; apply H; right; exact Hi').
  reflexivity.
Qed.

(** The double loop writes the lines of the specification's pairs. *)
Lemma findDuplicates_duplicate_pairs :
  findDuplicates sysex = map duplicate_line (duplicate_pairs sysex).
Proof.
  unfold findDuplicates, duplicate_pairs, voice_pairs.
  apply outer_loop_filter. intros i Hi. apply in_seq in Hi.
  apply inner_loop_filter. intros j Hj. apply in_seq in Hj.
  apply memcmp_same_parameters; lia.
Qed.

Lemma duplicate_pairs_sorted :
  StronglySorted pair_lt (duplicate_pairs sysex).
Proof.
  apply StronglySorted_filter.
  exact (rows_sorted (fun i => 32 - (i + 1))%nat 31 0).
Qed.

Lemma in_duplicate_pairs (i j : nat) :
  In (i, j) (duplicate_pairs sysex)
  <-> (i < j < 32)%nat
      /\ firstn 118 (DX7Sysex.voices sysex i)
         = firstn 118 (DX7Sysex.voices sysex j).
Proof.
  unfold duplicate_pairs.
  rewrite filter_In, in_voice_pairs, same_parameters_iff. reflexivity.
Qed.

Lemma same_prefix_pointwise (i j : nat) :
  (i < j < 32)%nat ->
  (firstn 118 (DX7Sysex.voices sysex i) = firstn 118 (DX7Sysex.voices sysex j)
   <-> forall k : nat,
       (k < 118)%nat ->
       at_index (DX7Sysex.voices sysex i) k
       = at_index (DX7Sysex.voices sysex j) k).
Proof.
  intros Hij. apply firstn_eq_pointwise.
  - rewrite (voices_length i) by lia. lia.
  - rewrite (voices_length j) by lia. lia.
Qed.


End Duplicates.


(** ** The frequency line

    What [pow] returns and what [operator<<(double)] writes are left to the
    C library; the listing is settled up to the operands of that
    expression. *)

(** In ratio mode the line shows the coarse value on two digits; in fixed
    mode the record carries [coarse mod 4] and the fine value, the operands
    of [pow(10, coarse % 4 + fine / 100)]; the mode is one bit, so there is
    no third case. *)
Lemma frequency_record_by_mode (op : list byte) :
  (OperatorPacked.oscillatorMode op = 0 ->
   nth 20 (format_operator_fields op) (Line "")
   = Line ("  Frequency Course: " ++ put02 (OperatorPacked.frequencyCoarse op))
   /\ String.length (put02 (OperatorPacked.frequencyCoarse op)) = 2%nat)
  /\ (OperatorPacked.oscillatorMode op = 1 ->
      nth 20 (format_operator_fields op) (Line "")
      = FixedFrequency (OperatorPacked.frequencyCoarse op mod 4)
                       (OperatorPacked.frequencyFine op))
  /\ (OperatorPacked.oscillatorMode op = 0
      \/ OperatorPacked.oscillatorMode op = 1).
Proof.
  pose proof (bitfield_range (at_index op 15) 1 5 ltac:(lia)) as R.
  fold (OperatorPacked.frequencyCoarse op) in R. change (2 ^ 5) with 32 in R.
  split; [|split].
  - intros H. unfold format_operator_fields. cbn [nth]. rewrite H.
    split; [reflexivity|].
    apply (put02_decimal (OperatorPacked.frequencyCoarse op)); lia.
  - intros H. unfold format_operator_fields. cbn [nth]. rewrite H.
    cbn [Z.eqb]. rewrite Z.rem_mod_nonneg by lia. reflexivity.
  - apply bitfield_1.
Qed.

Example fixed_frequency_operands :
  nth 20 (format_operator_fields
            (repeat x00 15 ++ [x03; x00])%list) (Line "")
  = FixedFrequency 1 0.
Proof. reflexivity. Qed.


(** * Further properties of the program *)

(** ** The lookup tables *)

(** X1.  [note] never reads outside its table, whatever its argument, and
    has period 12. *)
Theorem note_in_table (x : Z) :
  In (note x) notes /\ note (x + 12) = note x.
Proof.
  unfold note. cbv zeta. split.
  - apply nth_In. change (List.length notes) with 12%nat.
    pose proof (Z.mod_pos_bound x 12 ltac:(lia)). lia.
  - replace (x + 12) with (x + 1 * 12) by lia.
    rewrite Z_mod_plus_full. reflexivity.
Qed.

(** X2.  The texts of [transpose] and of [breakPoint] can be read back: on
    its range each function is injective, and no text of the range is the
    out-of-range text. *)
Theorem note_texts_read_back :
  (forall x : Z, 0 <= x <= 48 ->
                 transpose_value (transpose x) = Some x
                 /\ transpose x <> out_of_range)
  /\ (forall x : Z, 0 <= x <= 99 ->
                    breakPoint_value (breakPoint x) = Some x
                    /\ breakPoint x <> out_of_range)
  /\ (forall x y : Z, 0 <= x <= 48 -> 0 <= y <= 48 ->
                      transpose x = transpose y -> x = y)
  /\ (forall x y : Z, 0 <= x <= 99 -> 0 <= y <= 99 ->
                      breakPoint x = breakPoint y -> x = y).
Proof.
  assert (T : forall x : Z, 0 <= x <= 48 ->
                            transpose_value (transpose x) = Some x
                            /\ transpose x <> out_of_range).
  { intros x Hx.
    pose proof (Z_forall_below
                  (fun x =>
                     match transpose_value (transpose x) with
                     | Some y => y =? x
                     | None => false
                     end
                     && negb (String.eqb (transpose x) out_of_range))
                  49 ltac:(vm_compute; reflexivity) x ltac:(lia)) as G.
    cbv beta in G. apply andb_true_iff in G. destruct G as [G1 G2].
    split.
    - destruct (transpose_value (transpose x)) as [y|]; [|discriminate G1].
      apply Z.eqb_eq in G1. rewrite G1. reflexivity.
    - apply negb_true_iff in G2. apply String.eqb_neq. exact G2. }
  assert (B : forall x : Z, 0 <= x <= 99 ->
                            breakPoint_value (breakPoint x) = Some x
                            /\ breakPoint x <> out_of_range).
  { intros x Hx.
    pose proof (Z_forall_below
                  (fun x =>
                     match breakPoint_value (breakPoint x) with
                     | Some y => y =? x
                     | None => false
                     end
                     && negb (String.eqb (breakPoint x) out_of_range))
                  100 ltac:(vm_compute; reflexivity) x ltac:(lia)) as G.
    cbv beta in G. apply andb_true_iff in G. destruct G as [G1 G2].
    split.
    - destruct (breakPoint_value (breakPoint x)) as [y|]; [|discriminate G1].
      apply Z.eqb_eq in G1. rewrite G1. reflexivity.
    - apply negb_true_iff in G2. apply String.eqb_neq. exact G2. }
  split; [exact T|]. split; [exact B|]. split.
  - intros x y Hx Hy E.
    pose proof (proj1 (T x Hx)) as Ex. pose proof (proj1 (T y Hy)) as Ey.
    rewrite E, Ey in Ex. injection Ex as ->. reflexivity.
  - intros x y Hx Hy E.
    pose proof (proj1 (B x Hx)) as Ex. pose proof (proj1 (B y Hy)) as Ey.
    rewrite E, Ey in Ex. injection Ex as ->. reflexivity.
Qed.

Lemma note_texts_read_back_witness :
  transpose_value "F#3" = Some 30 /\ breakPoint_value "C3" = Some 39.
Proof.
  split.
  - apply (proj1 (proj1 note_texts_read_back 30 ltac:(lia))).
  - apply (proj1 (proj1 (proj2 note_texts_read_back) 39 ltac:(lia))).
Defined.

(** X3.  The two note renderings name the same scale, 15 semitones apart:
    the break point [y + 15] is written as the transpose value [y]. *)
Theorem breakPoint_transpose_shift (y : Z) :
  0 <= y <= 48 -> breakPoint (y + 15) = transpose y.
Proof.
  intros H. apply String.eqb_eq.
  apply (Z_forall_below
           (fun y => String.eqb (breakPoint (y + 15)) (transpose y)) 49).
  - vm_compute. reflexivity.
  - lia.
Qed.

Lemma breakPoint_transpose_shift_witness :
  breakPoint 39 = transpose 24.
Proof.
  apply (breakPoint_transpose_shift 24). lia.
Defined.

(** X4.  The curve and the oscillator-mode annotations of an operator never
    show the out-of-range text: the curves are 2-bit fields, each annotated
    with the name its value has in the table of four, and the mode is a 1-bit
    field.  The mode line and the frequency line agree: mode 0 is "Ratio"
    and goes with the line of the coarse value, mode 1 is "Fixed" and goes
    with the fixed-mode frequency, whose operands are the coarse value
    modulo 4, below 4, and the fine value, below 256. *)
Theorem operator_annotations_in_range (op : list byte) :
  let fields := format_operator_fields op in
  let curves := ["-LIN"; "-EXP"; "+EXP"; "+LIN"]%list in
  let left := OperatorPacked.levelScaleLeftCurve op in
  let right := OperatorPacked.levelScaleRightCurve op in
  (0 <= left < 4
   /\ curve left = nth (Z.to_nat left) curves ""
   /\ In (curve left) curves
   /\ nth 13 fields (Line "")
      = Line ("    Left Curve: " ++ put02 left ++ " (" ++ curve left ++ ")"))
  /\ (0 <= right < 4
      /\ curve right = nth (Z.to_nat right) curves ""
      /\ In (curve right) curves
      /\ nth 14 fields (Line "")
         = Line ("    Right Curve: " ++ put02 right
                 ++ " (" ++ curve right ++ ")"))
  /\ ((OperatorPacked.oscillatorMode op = 0
       /\ nth 19 fields (Line "") = Line "  Oscillator Mode: 00 (Ratio)"
       /\ nth 20 fields (Line "")
          = Line ("  Frequency Course: "
                  ++ put02 (OperatorPacked.frequencyCoarse op)))
      \/ (OperatorPacked.oscillatorMode op = 1
          /\ nth 19 fields (Line "") = Line "  Oscillator Mode: 01 (Fixed)"
          /\ nth 20 fields (Line "")
             = FixedFrequency (OperatorPacked.frequencyCoarse op mod 4)
                              (OperatorPacked.frequencyFine op)
          /\ 0 <= OperatorPacked.frequencyCoarse op mod 4 < 4
          /\ 0 <= OperatorPacked.frequencyFine op < 256)).
Proof.
  cbv zeta.
  pose proof (bitfield_range (at_index op 11) 0 2 ltac:(lia)) as L.
  pose proof (bitfield_range (at_index op 11) 2 2 ltac:(lia)) as R.
  fold (OperatorPacked.levelScaleLeftCurve op) in L.
  fold (OperatorPacked.levelScaleRightCurve op) in R.
  change (2 ^ 2) with 4 in L, R.
  assert (C : forall x : Z,
             0 <= x < 4 ->
             curve x = nth (Z.to_nat x) ["-LIN"; "-EXP"; "+EXP"; "+LIN"]%list ""
             /\ In (curve x) ["-LIN"; "-EXP"; "+EXP"; "+LIN"]%list).
  { intros x Hx.
    assert (E : x = 0 \/ x = 1 \/ x = 2 \/ x = 3) by lia.
    destruct E as [-> | [-> | [-> | ->]]]; cbn; tauto. }
  split; [|split].
  - split; [exact L|]. destruct (C _ L) as [C1 C2].
    split; [exact C1|]. split; [exact C2 | reflexivity].
  - split; [exact R|]. destruct (C _ R) as [C1 C2].
    split; [exact C1|]. split; [exact C2 | reflexivity].
  - destruct (frequency_record_by_mode op) as [F0 [F1 [M | M]]].
    + left. split; [exact M|]. split.
      * unfold format_operator_fields. cbn [nth]. rewrite M. reflexivity.
      * apply (proj1 (F0 M)).
    + right. split; [exact M|]. split.
      * unfold format_operator_fields. cbn [nth]. rewrite M. reflexivity.
      * split; [exact (F1 M)|].
        split; [apply Z.mod_pos_bound; lia | apply u8_range].
Qed.

(** X5.  The LFO wave is a 3-bit field with six names: the "Wave:" line
    shows the out-of-range text exactly when the field is 6 or 7, and a
    byte with those bits set is listed so. *)
Theorem lfoWave_out_of_range_iff (voice : list byte) :
  0 <= VoicePacked.lfoWave voice < 8
  /\ (lfoWave (VoicePacked.lfoWave voice) = out_of_range
      <-> 6 <= VoicePacked.lfoWave voice)
  /\ (at_index voice 116 = x0c \/ at_index voice 116 = x0e ->
      lfoWave (VoicePacked.lfoWave voice) = out_of_range).
Proof.
  pose proof (bitfield_range (at_index voice 116) 1 3 ltac:(lia)) as R.
  fold (VoicePacked.lfoWave voice) in R. change (2 ^ 3) with 8 in R.
  split; [exact R|]. split.
  - assert (E : VoicePacked.lfoWave voice = 0 \/ VoicePacked.lfoWave voice = 1
                \/ VoicePacked.lfoWave voice = 2
                \/ VoicePacked.lfoWave voice = 3
                \/ VoicePacked.lfoWave voice = 4
                \/ VoicePacked.lfoWave voice = 5
                \/ 6 <= VoicePacked.lfoWave voice) by lia.
    destruct E as [E | [E | [E | [E | [E | [E | E]]]]]];
      try (rewrite E; split; [discriminate | lia]).
    split; [intros _; exact E|]. intros _. unfold lfoWave.
    replace (5 <? VoicePacked.lfoWave voice) with true
      by (symmetry; apply Z.ltb_lt; lia).
    reflexivity.
  - unfold VoicePacked.lfoWave. intros [-> | ->]; reflexivity.
Qed.

Lemma lfoWave_out_of_range_iff_witness :
  lfoWave (VoicePacked.lfoWave (repeat x00 116 ++ [x0c])%list) = out_of_range.
Proof.
  apply (proj2 (proj2 (lfoWave_out_of_range_iff
                         (repeat x00 116 ++ [x0c])%list))).
  left. reflexivity.
Defined.

(** ** The name of a voice *)

Lemma c_str_prefix (p : list byte) :
  exists rest : list byte,
    p = (c_str p ++ rest)%list
    /\ ~ In x00 (c_str p)
    /\ (rest = []%list \/ hd x01 rest = x00).
Proof.
  induction p as [|b p [rest [E [N T]]]].
  - exists []%list. cbn. tauto.
  - cbn [c_str]. destruct (Byte.eqb b x00) eqn:B.
    + exists (b :: p)%list. apply Byte.byte_dec_bl in B. subst b.
      cbn. tauto.
    + exists rest. cbn [app In]. split; [f_equal; exact E|].
      split; [|exact T].
      intros [H | H]; [|exact (N H)].
      subst b. discriminate B.
Qed.

Lemma c_str_all (p : list byte) : ~ In x00 p -> c_str p = p.
Proof.
  induction p as [|b p IH]; intros H; [reflexivity|].
  cbn [c_str]. destruct (Byte.eqb b x00) eqn:B.
  - apply Byte.byte_dec_bl in B. subst b. exfalso. apply H. left. reflexivity.
  - f_equal. apply IH. intros Hin. apply H. right. exact Hin.
Qed.

Lemma string_of_list_byte_length (l : list byte) :
  String.length (string_of_list_byte l) = List.length l.
Proof.
  unfold string_of_list_byte.
  induction l as [|b l IH]; cbn [map string_of_list_ascii String.length];
    [reflexivity | rewrite IH; reflexivity].
Qed.

(** X6.  The name shown for a voice is the part of the 10 name bytes that
    comes before the first NUL byte: it is a prefix of the name, it has at
    most 10 characters, what follows it is nothing or starts with a NUL, and
    a name without NUL is shown whole, byte for byte. *)
Theorem name_shown_up_to_nul (voice : list byte) :
  let name := VoicePacked.name voice in
  let shown := list_byte_of_string (put_c_str name) in
  (exists rest : list byte,
      name = (shown ++ rest)%list
      /\ (rest = []%list \/ hd x01 rest = x00))
  /\ ~ In x00 shown
  /\ (String.length (put_c_str name) <= 10)%nat
  /\ (~ In x00 name -> shown = name).
Proof.
  cbv zeta. unfold put_c_str.
  rewrite list_byte_of_string_of_list_byte, string_of_list_byte_length.
  destruct (c_str_prefix (VoicePacked.name voice)) as [rest [E [N T]]].
  split; [exists rest; split; assumption|].
  split; [exact N|]. split.
  - assert (L : (List.length (VoicePacked.name voice) <= 10)%nat).
    { unfold VoicePacked.name, slice. rewrite length_firstn. lia. }
    rewrite E in L at 1. rewrite length_app in L. lia.
  - apply c_str_all.
Qed.

Lemma name_shown_up_to_nul_witness :
  list_byte_of_string (put_c_str (VoicePacked.name ramp_voice))
  = VoicePacked.name ramp_voice.
Proof.
  apply (proj2 (proj2 (proj2 (name_shown_up_to_nul ramp_voice)))).
  vm_compute. intros H.
  repeat (destruct H as [H | H]; [discriminate H|]). exact H.
Defined.

(** ** More on [verify] and its checksum *)

(** What [verify] does on a bank with the six markers in place. *)
Lemma verify_bank (body : list byte) (stored : byte) :
  List.length body = 4096%nat ->
  verify (bank body stored)
  = if u8 stored =? recomputeChecksum body then ([]%list, 0)
    else ([Line (msg_checksum (recomputeChecksum body))]%list, 1).
Proof.
  intros H. rewrite verify_validate. unfold validate, check_order.
  cbn [find passes reason].
  rewrite (end_bank body stored H), (checksum_bank body stored H),
    (payload_bank body stored H).
  change (DX7Sysex.sysexBeginF0 (bank body stored)) with 0xF0.
  change (DX7Sysex.yamaha43 (bank body stored)) with 0x43.
  change (DX7Sysex.subStatusAndChannel (bank body stored)) with 0x00.
  change (DX7Sysex.format9 (bank body stored)) with 0x09.
  change (DX7Sysex.sizeMsb (bank body stored)) with 0x20.
  change (DX7Sysex.sizeLsb (bank body stored)) with 0x00.
  cbn [Z.eqb Pos.eqb andb negb].
  destruct (u8 stored =? recomputeChecksum body); cbn [negb reason];
    [reflexivity|].
  rewrite (payload_bank body stored H). reflexivity.
Qed.

Lemma masked_sum_app (l1 l2 : list byte) :
  masked_sum (l1 ++ l2) = masked_sum l1 + masked_sum l2.
Proof.
  induction l1 as [|b l1 IH]; cbn [app masked_sum fold_right];
    [reflexivity|].
  fold (masked_sum (l1 ++ l2)). fold (masked_sum l1). rewrite IH. lia.
Qed.

Lemma masked_sum_map (l1 l2 : list byte) :
  map (fun b => Z.land (u8 b) 0x7F) l1 = map (fun b => Z.land (u8 b) 0x7F) l2 ->
  masked_sum l1 = masked_sum l2.
Proof.
  revert l2. induction l1 as [|a l1 IH]; intros [|b l2] H;
    try discriminate H; [reflexivity|].
  cbn [map] in H. injection H as Hab H.
  cbn [masked_sum fold_right]. fold (masked_sum l1). fold (masked_sum l2).
  rewrite Hab, (IH l2 H). reflexivity.
Qed.

Lemma masked_sum_permutation (l1 l2 : list byte) :
  Permutation l1 l2 -> masked_sum l1 = masked_sum l2.
Proof.
  induction 1 as [|a l1 l2 _ IH|a b l|l1 l2 l3 _ IH1 _ IH2];
    cbn [masked_sum fold_right].
  - reflexivity.
  - fold (masked_sum l1). fold (masked_sum l2). rewrite IH. reflexivity.
  - lia.
  - congruence.
Qed.

Lemma u8_byte_of_Z (z : Z) : 0 <= z < 256 -> u8 (byte_of_Z z) = z.
Proof.
  intros H. apply Z.eqb_eq.
  apply (Z_forall_below (fun z => u8 (byte_of_Z z) =? z) 256).
  - vm_compute. reflexivity.
  - lia.
Qed.

Lemma verify_shape (sysex : list byte) :
  verify sysex = ([]%list, 0)
  \/ exists c : check,
       passes sysex c = false
       /\ verify sysex = ([Line (reason sysex c)]%list, 1).
Proof.
  rewrite verify_validate. unfold validate.
  destruct (find _ check_order) as [c|] eqn:E; [right | left; reflexivity].
  exists c. apply find_some in E. destruct E as [_ E].
  apply negb_true_iff in E. split; [exact E | reflexivity].
Qed.

(** X7.  [verify] writes nothing and returns 0, or writes the reason of one
    check, a single line, and returns 1.  A stored checksum byte with its
    high bit set is never accepted, whatever the rest of the buffer. *)
Theorem verify_one_reason (sysex : list byte) :
  (verify sysex = ([]%list, 0)
   \/ exists c : check,
        passes sysex c = false
        /\ verify sysex = ([Line (reason sysex c)]%list, 1))
  /\ (128 <= DX7Sysex.checksum sysex -> snd (verify sysex) = 1).
Proof.
  pose proof (verify_shape sysex) as S.
  split; [exact S|].
  intros H. destruct S as [S | [c [_ S]]]; [|rewrite S; reflexivity].
  exfalso.
  assert (A : snd (verify sysex) = 0) by (rewrite S; reflexivity).
  apply verify_accepts in A. rewrite forallb_forall in A.
  specialize (A Checksum ltac:(unfold check_order; cbn [In]; tauto)).
  cbn [passes] in A. apply Z.eqb_eq in A.
  pose proof (recomputeChecksum_range (payload sysex)). lia.
Qed.

Lemma verify_one_reason_witness :
  snd (verify (bank (repeat x00 4096) x80)) = 1.
Proof.
  apply (proj2 (verify_one_reason (bank (repeat x00 4096) x80))).
  vm_compute. discriminate.
Defined.

(** X8.  The checksum does not see bit 7 of the payload bytes: two payloads
    that agree on the low 7 bits of every byte get the same verdict and the
    same output, whatever the stored checksum. *)
Theorem verify_ignores_high_bits (body1 body2 : list byte) (stored : byte) :
  List.length body1 = 4096%nat ->
  List.length body2 = 4096%nat ->
  map (fun b => Z.land (u8 b) 0x7F) body1
  = map (fun b => Z.land (u8 b) 0x7F) body2 ->
  verify (bank body1 stored) = verify (bank body2 stored).
Proof.
  intros H1 H2 E.
  rewrite (verify_bank body1 stored H1), (verify_bank body2 stored H2).
  unfold recomputeChecksum. rewrite (masked_sum_map body1 body2 E).
  reflexivity.
Qed.

Lemma verify_ignores_high_bits_witness :
  verify (bank (repeat x00 4096) x00) = verify (bank (repeat x80 4096) x00).
Proof.
  apply verify_ignores_high_bits; vm_compute; reflexivity.
Defined.

(** X9.  The checksum does not see the order of the payload bytes: a bank
    whose payload is rearranged, two voices exchanged for instance, gets the
    same verdict and the same output. *)
Theorem verify_ignores_order (body1 body2 : list byte) (stored : byte) :
  List.length body1 = 4096%nat ->
  Permutation body1 body2 ->
  verify (bank body1 stored) = verify (bank body2 stored).
Proof.
  intros H1 P.
  assert (H2 : List.length body2 = 4096%nat)
    by (rewrite <- (Permutation_length P); exact H1).
  rewrite (verify_bank body1 stored H1), (verify_bank body2 stored H2).
  unfold recomputeChecksum. rewrite (masked_sum_permutation body1 body2 P).
  reflexivity.
Qed.

Lemma verify_ignores_order_witness :
  verify (bank (x01 :: repeat x00 4095) x7f)
  = verify (bank (repeat x00 4095 ++ [x01])%list x7f).
Proof.
  apply verify_ignores_order.
  - vm_compute. reflexivity.
  - apply Permutation_cons_append.
Defined.

Lemma recomputeChecksum_mod (p : list byte) :
  recomputeChecksum p = (- masked_sum p) mod 128.
Proof.
  unfold recomputeChecksum. change 127 with (Z.ones 7).
  rewrite Z.land_ones by lia.
  replace (Z.lnot (masked_sum p) + 1) with (- masked_sum p)
    by (unfold Z.lnot; lia).
  reflexivity.
Qed.

Lemma mask7_range (b : byte) : 0 <= Z.land (u8 b) 0x7F < 128.
Proof.
  change 127 with (Z.ones 7). rewrite Z.land_ones by lia.
  apply Z.mod_pos_bound. lia.
Qed.

(** X10.  Every payload of 4096 bytes has exactly one checksum byte that
    [verify] accepts.  With any other stored byte the line written names that
    byte: after "0x" comes its value in decimal, and storing it makes the
    bank valid. *)
Theorem checksum_byte_unique (body : list byte) (stored : byte) :
  List.length body = 4096%nat ->
  let c := recomputeChecksum body in
  snd (verify (bank body (byte_of_Z c))) = 0
  /\ (snd (verify (bank body stored)) = 0 -> stored = byte_of_Z c)
  /\ (stored <> byte_of_Z c ->
      verify (bank body stored)
      = ([Line ("Checksum failed: Should have been 0x" ++ put_int c)]%list, 1))
  /\ decimal_value (put_int c) = Some c.
Proof.
  intros H c.
  pose proof (recomputeChecksum_range body) as R. fold c in R.
  assert (U : u8 (byte_of_Z c) = c) by (apply u8_byte_of_Z; lia).
  split; [|split; [|split]].
  - rewrite (verify_bank body _ H). fold c. rewrite U, Z.eqb_refl.
    reflexivity.
  - rewrite (verify_bank body _ H). fold c.
    destruct (u8 stored =? c) eqn:E; [|discriminate].
    intros _. apply Z.eqb_eq in E. apply u8_inj. congruence.
  - intros N. rewrite (verify_bank body _ H). fold c.
    destruct (u8 stored =? c) eqn:E; [|reflexivity].
    apply Z.eqb_eq in E. exfalso. apply N, u8_inj. congruence.
  - pose proof (Z_forall_below
                  (fun z => match decimal_value (put_int z) with
                            | Some m => m =? z
                            | None => false
                            end)
                  128 ltac:(vm_compute; reflexivity) c ltac:(lia)) as G.
    cbv beta in G.
    destruct (decimal_value (put_int c)) as [m|]; [|discriminate G].
    apply Z.eqb_eq in G. rewrite G. reflexivity.
Qed.

Lemma checksum_byte_unique_witness :
  verify (bank (x01 :: repeat x00 4095) x00)
  = ([Line "Checksum failed: Should have been 0x127"]%list, 1)
  /\ snd (verify (bank (x01 :: repeat x00 4095) (byte_of_Z 127))) = 0.
Proof.
  pose proof (checksum_byte_unique (x01 :: repeat x00 4095) x00
                ltac:(vm_compute; reflexivity)) as [A [_ [B _]]].
  split.
  - apply B. vm_compute. discriminate.
  - exact A.
Defined.

(** X11.  The checksum detects the change of one payload byte: when a bank
    is accepted and one byte of its payload is replaced by a byte with other
    low 7 bits, the checksum check fails. *)
Theorem single_byte_change_detected (l1 l2 : list byte) (b b' stored : byte) :
  List.length (l1 ++ b :: l2) = 4096%nat ->
  Z.land (u8 b) 0x7F <> Z.land (u8 b') 0x7F ->
  snd (verify (bank (l1 ++ b :: l2) stored)) = 0 ->
  verify (bank (l1 ++ b' :: l2) stored)
  = ([Line (msg_checksum (recomputeChecksum (l1 ++ b' :: l2)))]%list, 1).
Proof.
  intros H N A.
  assert (H' : List.length (l1 ++ b' :: l2) = 4096%nat).
  { rewrite length_app in *. cbn [List.length] in *. exact H. }
  rewrite (verify_bank _ stored H) in A.
  rewrite (verify_bank _ stored H').
  destruct (u8 stored =? recomputeChecksum (l1 ++ b :: l2)) eqn:E;
    [|discriminate A].
  apply Z.eqb_eq in E.
  destruct (u8 stored =? recomputeChecksum (l1 ++ b' :: l2)) eqn:E';
    [|reflexivity].
  apply Z.eqb_eq in E'. exfalso.
  rewrite E in E'. rewrite !recomputeChecksum_mod in E'.
  rewrite !masked_sum_app in E'. cbn [masked_sum fold_right] in E'.
  fold (masked_sum l2) in E'.
  pose proof (mask7_range b). pose proof (mask7_range b').
  set (m := Z.land (u8 b) 127) in *. set (m' := Z.land (u8 b') 127) in *.
  set (s1 := masked_sum l1) in *. set (s2 := masked_sum l2) in *.
  pose proof (Z.div_mod (- (s1 + (m + s2))) 128 ltac:(lia)).
  pose proof (Z.div_mod (- (s1 + (m' + s2))) 128 ltac:(lia)).
  lia.
Qed.

Lemma single_byte_change_detected_witness :
  verify (bank (x02 :: repeat x00 4095) x7f)
  = ([Line "Checksum failed: Should have been 0x126"]%list, 1).
Proof.
  apply (single_byte_change_detected []%list (repeat x00 4095) x01 x02 x7f);
    vm_compute; congruence.
Defined.

(** ** The outcomes of [main] *)

(** X12.  [main] has three outcomes.  A buffer that is not of 4104 bytes
    gives the size error alone, status 1, and is not looked into.  A buffer
    of 4104 bytes that fails a check gives the reason of a failing check
    followed by the "not a valid sysex file" line, status 1, and no part of
    the listing.  Otherwise the output is the listing, followed by
    the report of duplicates when it is asked for, and the status is 0. *)
Theorem main_outcomes (displayLongListing shouldFindDuplicates : bool)
    (patchToDisplay : Z) (filename : string) (buffer : list byte) :
  let result :=
    main displayLongListing shouldFindDuplicates patchToDisplay filename
         buffer in
  (List.length buffer <> DX7Sysex.sizeof
   /\ result
      = ([Line ("Error: " ++ filename
                ++ " does not match the expected size of a sysex file.")]%list,
         1))
  \/ (List.length buffer = DX7Sysex.sizeof
      /\ exists c : check,
           passes buffer c = false
           /\ result
              = ([Line (reason buffer c);
                  Line ("Error: " ++ filename ++ " is not a valid sysex file.")]
                 %list, 1))
  \/ (List.length buffer = DX7Sysex.sizeof
      /\ forallb (passes buffer) check_order = true
      /\ result
         = ((format buffer filename displayLongListing patchToDisplay
             ++ (if shouldFindDuplicates then findDuplicates buffer else []))
            %list, 0)).
Proof.
  cbv zeta. unfold main.
  destruct (List.length buffer =? DX7Sysex.sizeof)%nat eqn:E; cbn [negb].
  - apply Nat.eqb_eq in E. right.
    destruct (verify_shape buffer) as [V | [c [F V]]];
      rewrite V; cbn [Z.eqb negb].
    + right. split; [exact E|]. split; [|reflexivity].
      apply verify_accepts. rewrite V. reflexivity.
    + left. split; [exact E|]. exists c. split; [exact F | reflexivity].
  - apply Nat.eqb_neq in E. left. split; [exact E | reflexivity].
Qed.

(** ** The shape of the listing *)

Lemma format_single (sysex : list byte) (filename : string)
    (displayLongListing : bool) (N : Z) :
  1 <= N <= 32 ->
  format sysex filename displayLongListing N
  = format_voice filename displayLongListing (Z.to_nat (N - 1))
      (DX7Sysex.voices sysex (Z.to_nat (N - 1))).
Proof.
  intros H. unfold format.
  rewrite (flat_map_select
             (fun v => format_voice filename displayLongListing v
                         (DX7Sysex.voices sysex v))
             (fun v => (0 <=? N) && negb (N =? Z.of_nat v + 1))
             (Z.to_nat (N - 1))).
  - replace (0 <=? Z.to_nat (N - 1))%nat with true
      by (symmetry; apply Nat.leb_le; lia).
    replace (Z.to_nat (N - 1) <? 0 + 32)%nat with true
      by (symmetry; apply Nat.ltb_lt; lia).
    reflexivity.
  - intros v.
    replace (0 <=? N) with true by (symmetry; apply Z.leb_le; lia).
    cbn [andb]. f_equal.
    destruct (v =? Z.to_nat (N - 1))%nat eqn:E.
    + apply Nat.eqb_eq in E. apply Z.eqb_eq. lia.
    + apply Nat.eqb_neq in E. apply Z.eqb_neq. lia.
Qed.

Lemma format_all (sysex : list byte) (filename : string)
    (displayLongListing : bool) (N : Z) :
  N < 0 ->
  format sysex filename displayLongListing N
  = flat_map
      (fun v => format_voice filename displayLongListing v
                  (DX7Sysex.voices sysex v))
      (seq 0 32).
Proof.
  intros H. unfold format. apply flat_map_ext. intros v.
  replace (0 <=? N) with false by (symmetry; apply Z.leb_gt; lia).
  reflexivity.
Qed.

(** X13.  The size of the listing does not depend on the bytes listed: the
    long block of a voice has 179 records and its short form one, so without
    patch number the long listing has 5728 records and the short one 32, and
    with a patch number from 1 to 32 the long listing has 179.  The [k]-th
    line of the short listing is the voice number [k + 1] on two digits, a
    colon and the name of the voice. *)
Theorem listing_shape (sysex : list byte) (filename : string) (N : Z) :
  (forall (n : nat) (voice : list byte),
      List.length (format_voice filename true n voice) = 179%nat
      /\ List.length (format_voice filename false n voice) = 1%nat)
  /\ (N < 0 ->
      List.length (format sysex filename true N) = (32 * 179)%nat
      /\ List.length (format sysex filename false N) = 32%nat
      /\ forall k : nat,
           (k < 32)%nat ->
           nth k (format sysex filename false N) (Line "")
           = Line (put02 (Z.of_nat k + 1) ++ ": "
                   ++ put_c_str (VoicePacked.name (DX7Sysex.voices sysex k))))
  /\ (1 <= N <= 32 ->
      List.length (format sysex filename true N) = 179%nat).
Proof.
  split; [|split].
  - intros n voice. split; reflexivity.
  - intros H. rewrite !(format_all sysex filename _ N H).
    split; [reflexivity|]. split; [reflexivity|].
    intros k Hk.
    do 32 (destruct k as [|k]; [reflexivity|]). lia.
  - intros H. rewrite (format_single sysex filename true N H). reflexivity.
Qed.

Lemma listing_shape_witness :
  List.length (format zero_bank "bank.syx" true (-1)) = (32 * 179)%nat
  /\ List.length (format zero_bank "bank.syx" true 32) = 179%nat.
Proof.
  split.
  - apply (proj1 (proj2 (listing_shape zero_bank "bank.syx" (-1)))). lia.
  - apply (proj2 (proj2 (listing_shape zero_bank "bank.syx" 32))). lia.
Defined.

(** ** The bits the listing reads *)

Lemma land_ff (b : byte) : Z.land (u8 b) 0xFF = u8 b.
Proof.
  change 255 with (Z.ones 8). rewrite Z.land_ones by lia.
  apply Z.mod_small. pose proof (u8_range b). lia.
Qed.

(** A bit-field that lies within a mask is decided by the masked byte. *)
Lemma bitfield_masked (shift width mask : Z) :
  forallb
    (fun x => Z.land (Z.shiftr x shift) (Z.ones width)
              =? Z.land (Z.shiftr (Z.land x mask) shift) (Z.ones width))
    (map Z.of_nat (seq 0 256)) = true ->
  forall b1 b2 : byte,
    Z.land (u8 b1) mask = Z.land (u8 b2) mask ->
    bitfield b1 shift width = bitfield b2 shift width.
Proof.
  intros C b1 b2 E. unfold bitfield.
  pose proof (Z_forall_below _ 256 C (u8 b1) (u8_range b1)) as E1.
  pose proof (Z_forall_below _ 256 C (u8 b2) (u8_range b2)) as E2.
  cbv beta in E1, E2. apply Z.eqb_eq in E1, E2.
  rewrite E1, E2, E. reflexivity.
Qed.

Ltac masked_byte H k :=
  let E := fresh "E" in
  pose proof (H k ltac:(lia)) as E;
  cbn [operator_mask] in E; rewrite !land_ff in E; rewrite E; clear E.

Ltac masked_bits H k shift width mask :=
  let E := fresh "E" in
  pose proof (H k ltac:(lia)) as E;
  cbn [operator_mask] in E;
  apply (bitfield_masked shift width mask ltac:(vm_compute; reflexivity)) in E;
  rewrite E; clear E.

(** The listing of an operator reads the declared fields only. *)
Lemma operator_listing_masked (op1 op2 : list byte) :
  (forall k : nat,
      (k < 17)%nat ->
      Z.land (u8 (at_index op1 k)) (operator_mask k)
      = Z.land (u8 (at_index op2 k)) (operator_mask k)) ->
  format_operator_fields op1 = format_operator_fields op2.
Proof.
  intros H. unfold format_operator_fields.
  unfold OperatorPacked.egRate1, OperatorPacked.egRate2,
    OperatorPacked.egRate3, OperatorPacked.egRate4,
    OperatorPacked.egLevel1, OperatorPacked.egLevel2,
    OperatorPacked.egLevel3, OperatorPacked.egLevel4,
    OperatorPacked.levelScaleBreakPoint, OperatorPacked.levelScaleLeftDepth,
    OperatorPacked.levelScaleRightDepth, OperatorPacked.levelScaleLeftCurve,
    OperatorPacked.levelScaleRightCurve, OperatorPacked.oscillatorRateScale,
    OperatorPacked.detune, OperatorPacked.amplitudeModulationSensitivity,
    OperatorPacked.keyVelocitySensitivity, OperatorPacked.outputLevel,
    OperatorPacked.oscillatorMode, OperatorPacked.frequencyCoarse,
    OperatorPacked.frequencyFine.
  masked_byte H 0%nat. masked_byte H 1%nat. masked_byte H 2%nat.
  masked_byte H 3%nat. masked_byte H 4%nat. masked_byte H 5%nat.
  masked_byte H 6%nat. masked_byte H 7%nat. masked_byte H 8%nat.
  masked_byte H 9%nat. masked_byte H 10%nat.
  masked_bits H 11%nat 0 2 0x0F. masked_bits H 11%nat 2 2 0x0F.
  masked_bits H 12%nat 0 3 0x7F. masked_bits H 12%nat 3 4 0x7F.
  masked_bits H 13%nat 0 2 0x1F. masked_bits H 13%nat 2 3 0x1F.
  masked_byte H 14%nat.
  masked_bits H 15%nat 0 1 0x3F. masked_bits H 15%nat 1 5 0x3F.
  masked_byte H 16%nat.
  reflexivity.
Qed.

Lemma voice_mask_operator (j k : nat) :
  (j < 6)%nat -> (k < 17)%nat -> voice_mask (17 * j + k) = operator_mask k.
Proof.
  intros Hj Hk.
  do 6 (destruct j as [|j];
        [do 17 (destruct k as [|k]; [reflexivity|]); lia|]).
  lia.
Qed.

Lemma operator_block_masked (v1 v2 : list byte) (j : nat) :
  same_fields 118 v1 v2 -> (j < 6)%nat ->
  format_operator_fields (VoicePacked.operators v1 j)
  = format_operator_fields (VoicePacked.operators v2 j).
Proof.
  intros H Hj. apply operator_listing_masked. intros k Hk.
  unfold VoicePacked.operators. change OperatorPacked.sizeof with 17%nat.
  rewrite !at_index_slice by exact Hk.
  rewrite <- (voice_mask_operator j k Hj Hk).
  apply H. lia.
Qed.

Ltac voice_byte H k :=
  let E := fresh "E" in
  pose proof (H k ltac:(lia)) as E;
  change (voice_mask k) with 0xFF in E;
  rewrite !land_ff in E; rewrite E; clear E.

Ltac voice_bits H k shift width mask :=
  let E := fresh "E" in
  pose proof (H k ltac:(lia)) as E;
  change (voice_mask k) with mask in E;
  apply (bitfield_masked shift width mask ltac:(vm_compute; reflexivity)) in E;
  rewrite E; clear E.

(** From its fifth record on, the long block of a voice reads the declared
    fields of the 118 bytes before the name, and nothing else. *)
Lemma voice_parameters_masked (v1 v2 : list byte) (filename1 filename2 : string)
    (n1 n2 : nat) :
  same_fields 118 v1 v2 ->
  skipn 4 (format_voice filename1 true n1 v1)
  = skipn 4 (format_voice filename2 true n2 v2).
Proof.
  intros H. unfold format_voice. cbn [negb].
  unfold format_voice_fields. cbn [skipn app flat_map seq].
  unfold format_operator. cbv zeta. cbn [Nat.sub].
  rewrite (operator_block_masked v1 v2 5 H) by lia.
  rewrite (operator_block_masked v1 v2 4 H) by lia.
  rewrite (operator_block_masked v1 v2 3 H) by lia.
  rewrite (operator_block_masked v1 v2 2 H) by lia.
  rewrite (operator_block_masked v1 v2 1 H) by lia.
  rewrite (operator_block_masked v1 v2 0 H) by lia.
  unfold same_fields in H.
  unfold VoicePacked.pitchEgRate1, VoicePacked.pitchEgRate2,
    VoicePacked.pitchEgRate3, VoicePacked.pitchEgRate4,
    VoicePacked.pitchEgLevel1, VoicePacked.pitchEgLevel2,
    VoicePacked.pitchEgLevel3, VoicePacked.pitchEgLevel4,
    VoicePacked.algorithm, VoicePacked.feedback,
    VoicePacked.oscillatorKeySync, VoicePacked.lfoRate, VoicePacked.lfoDelay,
    VoicePacked.lfoPitchModulationDepth,
    VoicePacked.lfoAmplitudeModulationDepth, VoicePacked.lfoKeySync,
    VoicePacked.lfoWave, VoicePacked.lfoPitchModulationSensitivity,
    VoicePacked.transpose.
  voice_byte H 102%nat. voice_byte H 103%nat. voice_byte H 104%nat.
  voice_byte H 105%nat. voice_byte H 106%nat. voice_byte H 107%nat.
  voice_byte H 108%nat. voice_byte H 109%nat.
  voice_bits H 110%nat 0 5 0x1F.
  voice_bits H 111%nat 0 3 0x0F. voice_bits H 111%nat 3 1 0x0F.
  voice_byte H 112%nat. voice_byte H 113%nat. voice_byte H 114%nat.
  voice_byte H 115%nat.
  voice_bits H 116%nat 0 1 0xFF. voice_bits H 116%nat 1 3 0xFF.
  voice_bits H 116%nat 4 4 0xFF.
  voice_byte H 117%nat.
  reflexivity.
Qed.

Lemma same_fields_check (n : nat) (a b : list byte) :
  forallb (fun k => Z.land (u8 (at_index a k)) (voice_mask k)
                    =? Z.land (u8 (at_index b k)) (voice_mask k))
          (seq 0 n) = true ->
  same_fields n a b.
Proof.
  intros C k Hk. rewrite forallb_forall in C.
  apply Z.eqb_eq, C, in_seq. lia.
Qed.

Lemma name_masked (v1 v2 : list byte) :
  List.length v1 = 128%nat -> List.length v2 = 128%nat ->
  same_fields 128 v1 v2 -> VoicePacked.name v1 = VoicePacked.name v2.
Proof.
  intros L1 L2 H. unfold VoicePacked.name.
  assert (N1 : List.length (slice 118 10 v1) = 10%nat)
    by (unfold slice; rewrite length_firstn, length_skipn, L1; reflexivity).
  assert (N2 : List.length (slice 118 10 v2) = 10%nat)
    by (unfold slice; rewrite length_firstn, length_skipn, L2; reflexivity).
  apply (nth_ext _ _ x00 x00); [congruence|].
  intros k Hk. rewrite N1 in Hk.
  fold (at_index (slice 118 10 v1) k). fold (at_index (slice 118 10 v2) k).
  rewrite !at_index_slice by exact Hk.
  pose proof (H (118 + k)%nat ltac:(lia)) as E.
  replace (voice_mask (118 + k)) with 0xFF in E
    by (do 10 (destruct k as [|k]; [reflexivity|]); lia).
  rewrite !land_ff in E. apply u8_inj. exact E.
Qed.

(** X14.  The listing of a voice reads the declared fields only: two voice
    records that agree on every bit of a declared field, and may differ on
    the bits of the unnamed bit-fields, are listed identically, in the long
    and in the short form. *)
Theorem listing_reads_declared_fields (v1 v2 : list byte) (filename : string)
    (displayLongListing : bool) (n : nat) :
  List.length v1 = 128%nat -> List.length v2 = 128%nat ->
  same_fields 128 v1 v2 ->
  format_voice filename displayLongListing n v1
  = format_voice filename displayLongListing n v2.
Proof.
  intros L1 L2 H.
  pose proof (name_masked v1 v2 L1 L2 H) as N.
  destruct displayLongListing.
  - rewrite <- (firstn_skipn 4 (format_voice filename true n v1)).
    rewrite <- (firstn_skipn 4 (format_voice filename true n v2)).
    f_equal.
    + unfold format_voice. cbn [negb]. unfold format_voice_fields.
      cbn [firstn app]. rewrite N. reflexivity.
    + apply voice_parameters_masked. intros k Hk. apply H. lia.
  - unfold format_voice. cbn [negb]. rewrite N. reflexivity.
Qed.

Lemma listing_reads_declared_fields_witness :
  DX7Sysex.voices padded_bank 0 <> zero_voice
  /\ format_voice "bank.syx" true 0 (DX7Sysex.voices padded_bank 0)
     = format_voice "bank.syx" true 0 zero_voice.
Proof.
  split; [vm_compute; discriminate|].
  apply listing_reads_declared_fields;
    [vm_compute; reflexivity | vm_compute; reflexivity|].
  apply same_fields_check. vm_compute. reflexivity.
Defined.

(** ** More on the report of duplicates *)

Lemma duplicate_pair_of_line (p : nat * nat) :
  In p voice_pairs -> duplicate_pair_of (duplicate_line p) = Some p.
Proof.
  intros H.
  assert (C : forallb
                (fun p => match duplicate_pair_of (duplicate_line p) with
                          | Some q => (fst q =? fst p)%nat
                                      && (snd q =? snd p)%nat
                          | None => false
                          end)
                voice_pairs = true) by (vm_compute; reflexivity).
  rewrite forallb_forall in C. specialize (C p H).
  destruct (duplicate_pair_of (duplicate_line p)) as [[a b]|];
    [|discriminate C].
  destruct p as [i j]. cbn [fst snd] in C.
  apply andb_true_iff in C. destruct C as [C1 C2].
  apply Nat.eqb_eq in C1, C2. subst. reflexivity.
Qed.

Lemma read_back_pairs (pairs : list (nat * nat)) :
  incl pairs voice_pairs ->
  map duplicate_pair_of (map duplicate_line pairs) = map Some pairs.
Proof.
  induction pairs as [|p pairs IH]; intros H; [reflexivity|].
  cbn [map]. rewrite duplicate_pair_of_line by (apply H; left; reflexivity).
  rewrite IH; [reflexivity|].
  intros q Hq. apply H. right. exact Hq.
Qed.

Lemma duplicate_pairs_incl (sysex : list byte) :
  incl (duplicate_pairs sysex) voice_pairs.
Proof.
  intros [i j] H. apply in_duplicate_pairs in H.
  apply in_voice_pairs, H.
Qed.

Lemma sorted_pairs_NoDup (l : list (nat * nat)) :
  StronglySorted pair_lt l -> NoDup l.
Proof.
  induction 1 as [|a l S IH F]; constructor; [|exact IH].
  intros H. rewrite Forall_forall in F. specialize (F a H).
  unfold pair_lt in F. lia.
Qed.

Lemma in_findDuplicates (sysex : list byte) (p : nat * nat) :
  List.length sysex = DX7Sysex.sizeof ->
  In p voice_pairs ->
  (In (duplicate_line p) (findDuplicates sysex)
   <-> In p (duplicate_pairs sysex)).
Proof.
  intros Hlen Hp. rewrite (findDuplicates_duplicate_pairs sysex Hlen).
  split; [|apply in_map].
  intros H. apply in_map_iff in H. destruct H as [q [E Hq]].
  pose proof (duplicate_pair_of_line q (duplicate_pairs_incl sysex q Hq)) as Dq.
  pose proof (duplicate_pair_of_line p Hp) as Dp.
  rewrite E, Dp in Dq. injection Dq as ->. exact Hq.
Qed.

(** X15.  Every line of the report of duplicates can be read back to the
    pair of voices it names, and no line is written twice; there are at most
    496 lines, one per pair of voices. *)
Theorem report_lines_read_back (sysex : list byte) :
  List.length sysex = DX7Sysex.sizeof ->
  map duplicate_pair_of (findDuplicates sysex)
  = map Some (duplicate_pairs sysex)
  /\ NoDup (findDuplicates sysex)
  /\ (List.length (findDuplicates sysex) <= 496)%nat.
Proof.
  intros Hlen.
  assert (R : map duplicate_pair_of (findDuplicates sysex)
              = map Some (duplicate_pairs sysex)).
  { rewrite (findDuplicates_duplicate_pairs sysex Hlen).
    apply read_back_pairs, duplicate_pairs_incl. }
  split; [exact R|]. split.
  - apply (NoDup_map_inv duplicate_pair_of). rewrite R.
    apply NoDup_map_NoDup_ForallPairs.
    + intros x y _ _ E. injection E as ->. reflexivity.
    + apply sorted_pairs_NoDup, duplicate_pairs_sorted.
  - rewrite (findDuplicates_duplicate_pairs sysex Hlen), length_map.
    unfold duplicate_pairs.
    pose proof (filter_length_le (same_parameters sysex) voice_pairs) as L.
    change (List.length voice_pairs) with 496%nat in L. exact L.
Qed.

Lemma report_lines_read_back_witness :
  nth 1 (map duplicate_pair_of (findDuplicates named_bank)) None
  = Some (0%nat, 3%nat).
Proof.
  rewrite (proj1 (report_lines_read_back named_bank
                    ltac:(vm_compute; reflexivity))).
  vm_compute. reflexivity.
Defined.

(** X16.  [findDuplicates] writes nothing exactly when no two voices of the
    bank agree on the 118 bytes before the name. *)
Theorem no_report_iff_no_match (sysex : list byte) :
  List.length sysex = DX7Sysex.sizeof ->
  (findDuplicates sysex = []%list
   <-> forall i j : nat,
       (i < j < 32)%nat ->
       firstn 118 (DX7Sysex.voices sysex i)
       <> firstn 118 (DX7Sysex.voices sysex j)).
Proof.
  intros Hlen. rewrite (findDuplicates_duplicate_pairs sysex Hlen). split.
  - intros E i j Hij Heq. apply map_eq_nil in E.
    assert (In (i, j) (duplicate_pairs sysex))
      by (apply in_duplicate_pairs; split; assumption).
    rewrite E in H. exact H.
  - intros H. destruct (duplicate_pairs sysex) as [|[i j] l] eqn:E;
      [reflexivity|].
    exfalso.
    assert (In (i, j) (duplicate_pairs sysex))
      by (rewrite E; left; reflexivity).
    apply in_duplicate_pairs in H0. destruct H0 as [Hij Heq].
    exact (H i j Hij Heq).
Qed.

Lemma no_report_iff_no_match_witness :
  snd (verify distinct_bank) = 0
  /\ firstn 118 (DX7Sysex.voices distinct_bank 4)
     <> firstn 118 (DX7Sysex.voices distinct_bank 17).
Proof.
  split; [vm_compute; reflexivity|].
  apply (proj1 (no_report_iff_no_match distinct_bank
                  ltac:(vm_compute; reflexivity))
               ltac:(vm_compute; reflexivity) 4%nat 17%nat).
  lia.
Defined.

Lemma same_prefix_same_fields (a b : list byte) :
  (forall k : nat, (k < 118)%nat -> at_index a k = at_index b k) ->
  same_fields 118 a b.
Proof.
  intros H k Hk. rewrite (H k Hk). reflexivity.
Qed.

(** X17.  Two voices reported as duplicates are listed alike: from the fifth
    record on, that is after the file name, the voice number and the name,
    their long blocks are the same. *)
Theorem duplicates_listed_alike (sysex : list byte) (filename : string)
    (i j : nat) :
  List.length sysex = DX7Sysex.sizeof ->
  (i < j < 32)%nat ->
  In (Line (msg_duplicates i j)) (findDuplicates sysex) ->
  skipn 4 (format_voice filename true i (DX7Sysex.voices sysex i))
  = skipn 4 (format_voice filename true j (DX7Sysex.voices sysex j)).
Proof.
  intros Hlen Hij H.
  apply (in_findDuplicates sysex (i, j) Hlen) in H;
    [|apply in_voice_pairs; exact Hij].
  apply in_duplicate_pairs in H. destruct H as [_ E].
  apply voice_parameters_masked, same_prefix_same_fields.
  apply (same_prefix_pointwise sysex Hlen i j Hij). exact E.
Qed.

Lemma duplicates_listed_alike_witness :
  In (Line "Found duplicates: Voice 1 and voice 3.") (findDuplicates named_bank)
  /\ skipn 4 (format_voice "bank.syx" true 0 (DX7Sysex.voices named_bank 0))
     = skipn 4 (format_voice "bank.syx" true 2 (DX7Sysex.voices named_bank 2)).
Proof.
  assert (H : In (Line (msg_duplicates 0 2)) (findDuplicates named_bank))
    by (vm_compute; tauto).
  split; [exact H|].
  apply (duplicates_listed_alike named_bank "bank.syx" 0 2);
    [vm_compute; reflexivity | lia | exact H].
Defined.

(** X18.  The converse fails: the comparison of [findDuplicates] is on raw
    bytes and sees the unnamed bits.  Two voices that agree on every declared
    field before the name and differ at some byte before the name are listed
    alike from the fifth record on, and are not reported as duplicates. *)
Theorem alike_but_not_duplicates (sysex : list byte) (filename : string)
    (i j k : nat) :
  List.length sysex = DX7Sysex.sizeof ->
  (i < j < 32)%nat ->
  same_fields 118 (DX7Sysex.voices sysex i) (DX7Sysex.voices sysex j) ->
  (k < 118)%nat ->
  at_index (DX7Sysex.voices sysex i) k <> at_index (DX7Sysex.voices sysex j) k ->
  skipn 4 (format_voice filename true i (DX7Sysex.voices sysex i))
  = skipn 4 (format_voice filename true j (DX7Sysex.voices sysex j))
  /\ ~ In (Line (msg_duplicates i j)) (findDuplicates sysex).
Proof.
  intros Hlen Hij F Hk N. split; [apply voice_parameters_masked, F|].
  intros H.
  apply (in_findDuplicates sysex (i, j) Hlen) in H;
    [|apply in_voice_pairs; exact Hij].
  apply in_duplicate_pairs in H. destruct H as [_ E].
  apply N. apply (same_prefix_pointwise sysex Hlen i j Hij); assumption.
Qed.

Lemma alike_but_not_duplicates_witness :
  skipn 4 (format_voice "bank.syx" true 0 (DX7Sysex.voices padded_bank 0))
  = skipn 4 (format_voice "bank.syx" true 1 (DX7Sysex.voices padded_bank 1))
  /\ ~ In (Line "Found duplicates: Voice 1 and voice 2.")
          (findDuplicates padded_bank).
Proof.
  apply (alike_but_not_duplicates padded_bank "bank.syx" 0 1 110).
  - vm_compute. reflexivity.
  - lia.
  - apply same_fields_check. vm_compute. reflexivity.
  - lia.
  - vm_compute. discriminate.
Defined.

(** X19.  The report is closed under the three ways two matches give a
    third: for [i < j < k], any two of the lines for [(i, j)], [(j, k)] and
    [(i, k)] come with the remaining one.  A group of [n] voices with the
    same parameters is therefore reported as all its [n (n - 1) / 2]
    pairs. *)
Theorem report_is_transitive (sysex : list byte) (i j k : nat) :
  List.length sysex = DX7Sysex.sizeof ->
  (i < j)%nat -> (j < k)%nat -> (k < 32)%nat ->
  let reported (a b : nat) :=
    In (Line (msg_duplicates a b)) (findDuplicates sysex) in
  (reported i j -> reported j k -> reported i k)
  /\ (reported i j -> reported i k -> reported j k)
  /\ (reported i k -> reported j k -> reported i j).
Proof.
  intros Hlen Hij Hjk Hk reported.
  assert (R : forall a b : nat,
             (a < b < 32)%nat ->
             (reported a b
              <-> firstn 118 (DX7Sysex.voices sysex a)
                  = firstn 118 (DX7Sysex.voices sysex b))).
  { intros a b Hab. unfold reported.
    change (Line (msg_duplicates a b)) with (duplicate_line (a, b)).
    rewrite (in_findDuplicates sysex (a, b) Hlen)
      by (apply in_voice_pairs; exact Hab).
    rewrite in_duplicate_pairs. tauto. }
  rewrite (R i j), (R j k), (R i k) by lia.
  repeat split; congruence.
Qed.

Lemma report_is_transitive_witness :
  In (Line "Found duplicates: Voice 3 and voice 5.") (findDuplicates named_bank).
Proof.
  apply (proj1 (proj2 (report_is_transitive named_bank 0 2 4
                         ltac:(vm_compute; reflexivity)
                         ltac:(lia) ltac:(lia) ltac:(lia))));
    vm_compute; tauto.
Defined.

(** X20.  The report does not depend on the names of the voices, nor on the
    header, the stored checksum or the end marker: two buffers of 4104 bytes
    whose voices agree on the 118 bytes before the name get the same
    report. *)
Theorem report_ignores_names (sysex1 sysex2 : list byte) :
  List.length sysex1 = DX7Sysex.sizeof ->
  List.length sysex2 = DX7Sysex.sizeof ->
  (forall i : nat,
      (i < 32)%nat ->
      firstn 118 (DX7Sysex.voices sysex1 i)
      = firstn 118 (DX7Sysex.voices sysex2 i)) ->
  findDuplicates sysex1 = findDuplicates sysex2.
Proof.
  intros H1 H2 E.
  rewrite (findDuplicates_duplicate_pairs sysex1 H1),
    (findDuplicates_duplicate_pairs sysex2 H2).
  f_equal. unfold duplicate_pairs. apply filter_ext_in.
  intros [i j] Hp. apply in_voice_pairs in Hp.
  unfold same_parameters. cbn [fst snd].
  change (VoicePacked.sizeof - 10)%nat with 118%nat.
  rewrite (E i), (E j) by lia. reflexivity.
Qed.

Lemma report_ignores_names_witness :
  findDuplicates named_bank
  = findDuplicates
      (repeat x00 134 ++ x01 :: repeat x00 (127 + 30 * 128 + 2))%list.
Proof.
  apply report_ignores_names; [vm_compute; reflexivity ..|].
  intros i Hi.
  do 32 (destruct i as [|i]; [vm_compute; reflexivity|]). lia.
Defined.

(** ** The options *)

Lemma processOptions_flags (version : string) (results : list (ascii * Z)) :
  forall o : Options.t,
    forallb (fun r => is_flag (fst r)) results = true ->
    processOptions version results o
    = inr (Options.make
             (Options.displayLongListing o
              || existsb (fun r => Ascii.eqb (fst r) "l"
                                   || Ascii.eqb (fst r) "p") results)
             (Options.shouldFindDuplicates o
              || existsb (fun r => Ascii.eqb (fst r) "f") results)
             (last_patch results (Options.patchToDisplay o))).
Proof.
  induction results as [|[i optarg] results IH]; intros o H.
  - cbn. rewrite !orb_false_r. destruct o; reflexivity.
  - cbn [forallb fst] in H. apply andb_true_iff in H. destruct H as [Hi H].
    cbn [processOptions existsb last_patch fold_left fst snd].
    fold (last_patch results).
    unfold is_flag in Hi.
    destruct (Ascii.eqb i "l") eqn:El.
    { rewrite (IH _ H). cbn [Options.displayLongListing
        Options.shouldFindDuplicates Options.patchToDisplay orb].
      apply Ascii.eqb_eq in El. subst i. cbn [Ascii.eqb Bool.eqb andb orb].
      rewrite orb_true_r. reflexivity. }
    destruct (Ascii.eqb i "f") eqn:Ef.
    { rewrite (IH _ H). cbn [Options.displayLongListing
        Options.shouldFindDuplicates Options.patchToDisplay orb].
      apply Ascii.eqb_eq in Ef. subst i. cbn [Ascii.eqb Bool.eqb andb orb].
      rewrite orb_true_r. reflexivity. }
    destruct (Ascii.eqb i "p") eqn:Ep; [|discriminate Hi].
    rewrite (IH _ H). cbn [Options.displayLongListing
      Options.shouldFindDuplicates Options.patchToDisplay orb].
    rewrite orb_true_r. reflexivity.
Qed.

Lemma processOptions_stop (version : string) (i : ascii) (optarg : Z)
    (post : list (ascii * Z)) :
  forall (pre : list (ascii * Z)) (o : Options.t),
    forallb (fun r => is_flag (fst r)) pre = true ->
    is_flag i = false ->
    processOptions version (pre ++ (i, optarg) :: post) o
    = inl (stop_at version i).
Proof.
  induction pre as [|[c a] pre IH]; intros o Hpre Hi.
  - cbn [app processOptions]. unfold is_flag in Hi.
    apply orb_false_iff in Hi. destruct Hi as [Hi Hp].
    apply orb_false_iff in Hi. destruct Hi as [Hl Hf].
    rewrite Hl, Hf, Hp. unfold stop_at.
    destruct (Ascii.eqb i "v"); [reflexivity|].
    destruct (Ascii.eqb i "h"); reflexivity.
  - cbn [forallb fst] in Hpre. apply andb_true_iff in Hpre.
    destruct Hpre as [Hc Hpre]. cbn [app processOptions].
    unfold is_flag in Hc.
    destruct (Ascii.eqb c "l"); [apply IH; assumption|].
    destruct (Ascii.eqb c "f"); [apply IH; assumption|].
    destruct (Ascii.eqb c "p"); [apply IH; assumption|].
    discriminate Hc.
Qed.

(** A sequence of options is made of flags only, or has a first option that
    is not a flag. *)
Lemma first_other_option (results : list (ascii * Z)) :
  forallb (fun r => is_flag (fst r)) results = true
  \/ exists (pre : list (ascii * Z)) (i : ascii) (optarg : Z)
            (post : list (ascii * Z)),
       results = (pre ++ (i, optarg) :: post)%list
       /\ forallb (fun r => is_flag (fst r)) pre = true
       /\ is_flag i = false.
Proof.
  induction results as [|[c a] results IH]; [left; reflexivity|].
  cbn [forallb fst]. destruct (is_flag c) eqn:E.
  - destruct IH as [IH | [pre [i [optarg [post [R [P N]]]]]]].
    + left. rewrite IH. reflexivity.
    + right. exists ((c, a) :: pre)%list, i, optarg, post.
      split; [rewrite R; reflexivity|]. split; [|exact N].
      cbn [forallb fst]. rewrite E, P. reflexivity.
  - right. exists []%list, c, a, results.
    split; [reflexivity|]. split; [reflexivity | exact E].
Qed.

(** X21.  When every option is [-l], [-f] or [-p], [processOptions] returns
    with the long listing on if it was on or [-l] or [-p] occurs, the search
    for duplicates on if it was on or [-f] occurs, and the patch number of
    the last [-p]: the order and the repetition of the options do not
    matter otherwise, no option switches anything off, and [-p] always brings
    the long listing. *)
Theorem options_accumulate (version : string) (results : list (ascii * Z))
    (o : Options.t) :
  forallb (fun r => is_flag (fst r)) results = true ->
  exists o' : Options.t,
    processOptions version results o = inr o'
    /\ Options.displayLongListing o'
       = Options.displayLongListing o
         || existsb (fun r => Ascii.eqb (fst r) "l" || Ascii.eqb (fst r) "p")
                    results
    /\ Options.shouldFindDuplicates o'
       = Options.shouldFindDuplicates o
         || existsb (fun r => Ascii.eqb (fst r) "f") results
    /\ Options.patchToDisplay o' = last_patch results (Options.patchToDisplay o)
    /\ (forall (pre post : list (ascii * Z)) (optarg : Z),
           results = (pre ++ ("p"%char, optarg) :: post)%list ->
           Options.displayLongListing o' = true
           /\ (existsb (fun r => Ascii.eqb (fst r) "p") post = false ->
               Options.patchToDisplay o' = to_int optarg)).
Proof.
  intros H. eexists. split; [apply processOptions_flags, H|].
  cbn [Options.displayLongListing Options.shouldFindDuplicates
         Options.patchToDisplay].
  split; [reflexivity|]. split; [reflexivity|]. split; [reflexivity|].
  intros pre post optarg E. subst results. split.
  - rewrite existsb_app. cbn [existsb fst Ascii.eqb Bool.eqb andb orb].
    rewrite !orb_true_r. reflexivity.
  - intros N. unfold last_patch. rewrite fold_left_app.
    cbn [fold_left fst snd Ascii.eqb Bool.eqb andb].
    clear H. generalize (to_int optarg) as z.
    induction post as [|[c a] post IH]; intros z; [reflexivity|].
    cbn [existsb fst] in N. apply orb_false_iff in N. destruct N as [Nc N].
    cbn [fold_left fst snd]. rewrite Nc. apply IH, N.
Qed.

Lemma options_accumulate_witness :
  processOptions "1.01" [("p"%char, 7); ("f"%char, 0); ("p"%char, 3)]%list
                 (Options.make false false (-1))
  = inr (Options.make true true 3).
Proof.
  destruct (options_accumulate "1.01"
              [("p"%char, 7); ("f"%char, 0); ("p"%char, 3)]%list
              (Options.make false false (-1)) ltac:(reflexivity))
    as [o' [E [L [F [P _]]]]].
  rewrite E. destruct o' as [l f p].
  cbn [Options.displayLongListing Options.shouldFindDuplicates
         Options.patchToDisplay] in L, F, P.
  rewrite L, F, P. reflexivity.
Defined.

(** X22.  The first option that is not [-l], [-f] or [-p] ends the program:
    [-v] writes the version and [-h] the help, with status 0, and any other
    value writes "Unexpected option" with status 1.  The options after it are
    not looked at. *)
Theorem options_stop_at_first_other (version : string)
    (pre post : list (ascii * Z)) (i : ascii) (optarg : Z) (o : Options.t) :
  forallb (fun r => is_flag (fst r)) pre = true ->
  is_flag i = false ->
  processOptions version (pre ++ (i, optarg) :: post) o
  = inl (if Ascii.eqb i "v" then (version_text version, 0)
         else if Ascii.eqb i "h" then (help_text, 0)
         else ([Line "Unexpected option. Try -h for help."]%list, 1)).
Proof.
  intros Hpre Hi. apply processOptions_stop; assumption.
Qed.

Lemma options_stop_at_first_other_witness :
  processOptions "1.01" [("l"%char, 0); ("?"%char, 0); ("h"%char, 0)]%list
                 (Options.make false false (-1))
  = inl ([Line "Unexpected option. Try -h for help."]%list, 1).
Proof.
  apply (options_stop_at_first_other "1.01" [("l"%char, 0)]%list
           [("h"%char, 0)]%list "?"%char 0);
    reflexivity.
Defined.

(** ** The whole program *)

Lemma main_status (displayLongListing shouldFindDuplicates : bool)
    (patchToDisplay : Z) (filename : string) (buffer : list byte) :
  (snd (main displayLongListing shouldFindDuplicates patchToDisplay filename
             buffer) = 0
   <-> List.length buffer = DX7Sysex.sizeof
       /\ forallb (passes buffer) check_order = true)
  /\ (snd (main displayLongListing shouldFindDuplicates patchToDisplay filename
               buffer) = 0
      \/ snd (main displayLongListing shouldFindDuplicates patchToDisplay
                   filename buffer) = 1).
Proof.
  unfold main.
  destruct (List.length buffer =? DX7Sysex.sizeof)%nat eqn:E; cbn [negb].
  - apply Nat.eqb_eq in E.
    pose proof (verify_accepts buffer) as A.
    destruct (verify_shape buffer) as [V | [c [F V]]];
      rewrite V in *; cbn [Z.eqb negb snd] in *.
    + split; [|left; reflexivity]. split; [|reflexivity].
      intros _. split; [exact E | apply A; reflexivity].
    + split; [|right; reflexivity]. split; [discriminate|].
      intros [_ P]. apply A in P. discriminate P.
  - apply Nat.eqb_neq in E. cbn [snd].
    split; [|right; reflexivity]. split; [discriminate|].
    intros [L _]. contradiction.
Qed.

Lemma main_valid (displayLongListing shouldFindDuplicates : bool)
    (patchToDisplay : Z) (filename : string) (buffer : list byte) :
  List.length buffer = DX7Sysex.sizeof ->
  snd (verify buffer) = 0 ->
  main displayLongListing shouldFindDuplicates patchToDisplay filename buffer
  = ((format buffer filename displayLongListing patchToDisplay
      ++ (if shouldFindDuplicates then findDuplicates buffer else []))%list,
     0).
Proof.
  intros Hlen Hrc. unfold main.
  rewrite Hlen, Nat.eqb_refl. cbn [negb].
  destruct (verify buffer) as [out rc]. cbn [snd] in Hrc. subst rc.
  reflexivity.
Qed.

Lemma dx7dump_flags (results : list (ascii * Z)) (filename : string)
    (rest : list string) (open_file : string -> string + list byte)
    (buffer : list byte) :
  forallb (fun r => is_flag (fst r)) results = true ->
  open_file filename = inr buffer ->
  dx7dump results (filename :: rest) open_file
  = main (existsb (fun r => Ascii.eqb (fst r) "l" || Ascii.eqb (fst r) "p")
                  results)
         (existsb (fun r => Ascii.eqb (fst r) "f") results)
         (last_patch results (-1)) filename buffer.
Proof.
  intros H O. unfold dx7dump. cbv zeta.
  rewrite (processOptions_flags _ results _ H), O. reflexivity.
Qed.

(** X23.  The program ends with status 0 in two cases only: the first option
    that is not [-l], [-f] or [-p] is [-v] or [-h]; or all the options are
    among these three, a file name is given, the file opens, it has 4104
    bytes and it passes the seven checks.  In every other case the status is
    1. *)
Theorem dx7dump_succeeds_iff (results : list (ascii * Z)) (args : list string)
    (open_file : string -> string + list byte) :
  (snd (dx7dump results args open_file) = 0
   <-> (exists (pre : list (ascii * Z)) (i : ascii) (optarg : Z)
               (post : list (ascii * Z)),
           results = (pre ++ (i, optarg) :: post)%list
           /\ forallb (fun r => is_flag (fst r)) pre = true
           /\ (i = "v"%char \/ i = "h"%char))
       \/ (forallb (fun r => is_flag (fst r)) results = true
           /\ exists (filename : string) (rest : list string)
                     (buffer : list byte),
                args = (filename :: rest)%list
                /\ open_file filename = inr buffer
                /\ List.length buffer = DX7Sysex.sizeof
                /\ forallb (passes buffer) check_order = true))
  /\ (snd (dx7dump results args open_file) = 0
      \/ snd (dx7dump results args open_file) = 1).
Proof.
  destruct (first_other_option results)
    as [F | [pre [i [optarg [post [R [P N]]]]]]].
  - (* flags only *)
    assert (NoStop : ~ exists (pre : list (ascii * Z)) (i : ascii) (optarg : Z)
                            (post : list (ascii * Z)),
                       results = (pre ++ (i, optarg) :: post)%list
                       /\ forallb (fun r => is_flag (fst r)) pre = true
                       /\ (i = "v"%char \/ i = "h"%char)).
    { intros [pre [i [optarg [post [R [_ V]]]]]].
      rewrite forallb_forall in F.
      specialize (F (i, optarg)
                    ltac:(rewrite R; apply in_elt)).
      cbn [fst] in F. destruct V as [-> | ->]; discriminate F. }
    destruct args as [|filename rest].
    { unfold dx7dump. cbv zeta. rewrite (processOptions_flags _ results _ F).
      cbn [snd]. split; [|right; reflexivity].
      split; [discriminate|].
      intros [S | [_ [fn [r [b [E _]]]]]]; [contradiction | discriminate E]. }
    destruct (open_file filename) as [strerror | buffer] eqn:O.
    { unfold dx7dump. cbv zeta.
      rewrite (processOptions_flags _ results _ F), O.
      cbn [snd]. split; [|right; reflexivity].
      split; [discriminate|].
      intros [S | [_ [fn [r [b [E [O' _]]]]]]]; [contradiction|].
      injection E as <- <-. rewrite O in O'. discriminate O'. }
    rewrite (dx7dump_flags results filename rest open_file buffer F O).
    destruct (main_status
                (existsb (fun r => Ascii.eqb (fst r) "l"
                                   || Ascii.eqb (fst r) "p") results)
                (existsb (fun r => Ascii.eqb (fst r) "f") results)
                (last_patch results (-1)) filename buffer) as [M B].
    split; [|exact B]. rewrite M. split.
    + intros [L C]. right. split; [exact F|].
      exists filename, rest, buffer. repeat split; assumption.
    + intros [S | [_ [fn [r [b [E [O' [L C]]]]]]]]; [contradiction|].
      injection E as <- <-. rewrite O in O'. injection O' as <-.
      split; assumption.
  - (* stopped at the option i *)
    subst results. unfold dx7dump. cbv zeta.
    rewrite (processOptions_stop _ i optarg post pre _ P N).
    unfold stop_at.
    destruct (Ascii.eqb i "v") eqn:Ev.
    { cbn [snd]. split; [|left; reflexivity]. split; [|reflexivity].
      intros _. left. exists pre, i, optarg, post.
      apply Ascii.eqb_eq in Ev.
      split; [reflexivity|]. split; [exact P|]. left. exact Ev. }
    destruct (Ascii.eqb i "h") eqn:Eh.
    { cbn [snd]. split; [|left; reflexivity]. split; [|reflexivity].
      intros _. left. exists pre, i, optarg, post.
      apply Ascii.eqb_eq in Eh.
      split; [reflexivity|]. split; [exact P|]. right. exact Eh. }
    cbn [snd]. split; [|right; reflexivity]. split; [discriminate|].
    intros [[pre' [i' [a' [post' [R' [P' V']]]]]] | [F _]].
    + (* the first non-flag is unique *)
      exfalso.
      assert (U : forall (l1 l2 : list (ascii * Z)),
                 forallb (fun r => is_flag (fst r)) l1 = true ->
                 forallb (fun r => is_flag (fst r)) l2 = true ->
                 forall (x y : ascii * Z) (m1 m2 : list (ascii * Z)),
                   is_flag (fst x) = false -> is_flag (fst y) = false ->
                   (l1 ++ x :: m1 = l2 ++ y :: m2)%list -> x = y).
      { induction l1 as [|a l1 IH1]; intros [|b l2] H1 H2 x y m1 m2 Hx Hy E.
        - injection E as -> _. reflexivity.
        - cbn [app] in E. injection E as -> _.
          cbn [forallb] in H2. rewrite Hx in H2. discriminate H2.
        - cbn [app] in E. injection E as -> _.
          cbn [forallb] in H1. rewrite Hy in H1. discriminate H1.
        - cbn [app] in E. injection E as _ E.
          cbn [forallb] in H1, H2.
          apply andb_true_iff in H1, H2.
          apply (IH1 l2 (proj2 H1) (proj2 H2) x y m1 m2 Hx Hy E). }
      assert (N' : is_flag i' = false) by (destruct V' as [-> | ->]; reflexivity).
      pose proof (U pre pre' P P' (i, optarg) (i', a') post post' N N' R') as E.
      injection E as -> _.
      destruct V' as [-> | ->]; [discriminate Ev | discriminate Eh].
    + exfalso. rewrite forallb_app in F.
      apply andb_true_iff in F. destruct F as [_ F].
      cbn [forallb fst] in F. rewrite N in F. discriminate F.
Qed.

Lemma to_int_small (z : Z) : - 2 ^ 31 <= z < 2 ^ 31 -> to_int z = z.
Proof.
  intros H. unfold to_int. rewrite Z.mod_small; lia.
Qed.

Lemma last_patch_without (results : list (ascii * Z)) :
  forall default : Z,
    existsb (fun r => Ascii.eqb (fst r) "p") results = false ->
    last_patch results default = default.
Proof.
  unfold last_patch.
  induction results as [|[c a] results IH]; intros default H; [reflexivity|].
  cbn [existsb fst] in H. apply orb_false_iff in H. destruct H as [Hc H].
  cbn [fold_left fst snd]. rewrite Hc. apply IH, H.
Qed.

(** X24.  [dx7dump -p N file], with [-l] and further [-p] before it or [-l]
    after it, on a file that holds a valid bank and for [N] from 1 to 32,
    writes the long block of voice [N] and nothing else, and ends with
    status 0. *)
Theorem single_patch_end_to_end (pre post : list (ascii * Z)) (N : Z)
    (filename : string) (rest : list string)
    (open_file : string -> string + list byte) (buffer : list byte) :
  forallb (fun r => Ascii.eqb (fst r) "l" || Ascii.eqb (fst r) "p") pre = true ->
  forallb (fun r => Ascii.eqb (fst r) "l") post = true ->
  1 <= N <= 32 ->
  open_file filename = inr buffer ->
  List.length buffer = DX7Sysex.sizeof ->
  snd (verify buffer) = 0 ->
  dx7dump (pre ++ ("p"%char, N) :: post) (filename :: rest) open_file
  = (format_voice filename true (Z.to_nat (N - 1))
       (DX7Sysex.voices buffer (Z.to_nat (N - 1))), 0).
Proof.
  intros Hpre Hpost HN O Hlen Hrc.
  assert (Fpre : forall r, In r pre ->
                           (Ascii.eqb (fst r) "l" || Ascii.eqb (fst r) "p")
                           = true)
    by (apply forallb_forall; exact Hpre).
  assert (Fpost : forall r, In r post -> Ascii.eqb (fst r) "l" = true)
    by (apply forallb_forall; exact Hpost).
  assert (Flags : forallb (fun r => is_flag (fst r))
                          (pre ++ ("p"%char, N) :: post) = true).
  { apply forallb_forall. intros r Hr. unfold is_flag.
    apply in_app_or in Hr. destruct Hr as [Hr | [<- | Hr]].
    - specialize (Fpre r Hr). apply orb_true_iff in Fpre.
      destruct Fpre as [-> | ->]; [reflexivity | apply orb_true_r].
    - reflexivity.
    - rewrite (Fpost r Hr). reflexivity. }
  assert (NoF : existsb (fun r => Ascii.eqb (fst r) "f")
                        (pre ++ ("p"%char, N) :: post) = false).
  { apply not_true_is_false. intros E. apply existsb_exists in E.
    destruct E as [r [Hr E]]. apply Ascii.eqb_eq in E.
    apply in_app_or in Hr. destruct Hr as [Hr | [<- | Hr]].
    - specialize (Fpre r Hr). rewrite E in Fpre. discriminate Fpre.
    - discriminate E.
    - specialize (Fpost r Hr). rewrite E in Fpost. discriminate Fpost. }
  assert (Long : existsb (fun r => Ascii.eqb (fst r) "l"
                                   || Ascii.eqb (fst r) "p")
                         (pre ++ ("p"%char, N) :: post) = true).
  { rewrite existsb_app. cbn [existsb fst Ascii.eqb Bool.eqb andb orb].
    rewrite !orb_true_r. reflexivity. }
  assert (Patch : last_patch (pre ++ ("p"%char, N) :: post) (-1) = N).
  { unfold last_patch. rewrite fold_left_app.
    cbn [fold_left fst snd Ascii.eqb Bool.eqb andb].
    fold (last_patch post (to_int N)).
    rewrite last_patch_without; [apply to_int_small; lia|].
    apply not_true_is_false. intros E. apply existsb_exists in E.
    destruct E as [r [Hr E]]. apply Ascii.eqb_eq in E.
    specialize (Fpost r Hr). rewrite E in Fpost. discriminate Fpost. }
  rewrite (dx7dump_flags _ filename rest open_file buffer Flags O).
  rewrite NoF, Long, Patch.
  rewrite (main_valid true false N filename buffer Hlen Hrc).
  rewrite (format_single buffer filename true N HN), app_nil_r.
  reflexivity.
Qed.

Lemma single_patch_end_to_end_witness :
  dx7dump [("p"%char, 9); ("p"%char, 32); ("l"%char, 0)]%list
          ["bank.syx"; "other.syx"]%list (one_file "bank.syx" named_bank)
  = (format_voice "bank.syx" true 31 (DX7Sysex.voices named_bank 31), 0).
Proof.
  apply (single_patch_end_to_end [("p"%char, 9)]%list [("l"%char, 0)]%list 32
           "bank.syx" ["other.syx"]%list (one_file "bank.syx" named_bank)
           named_bank);
    try (vm_compute; reflexivity).
  lia.
Defined.

(** X25.  [-f] adds the report of duplicates after the listing and changes
    nothing else: on a file that holds a valid bank, with options among
    [-l] and [-p] besides, the output with [-f] is the output without it
    followed by the report, wherever [-f] stands. *)
Theorem find_duplicates_appends (pre post : list (ascii * Z)) (optarg : Z)
    (filename : string) (rest : list string)
    (open_file : string -> string + list byte) (buffer : list byte) :
  forallb (fun r => Ascii.eqb (fst r) "l" || Ascii.eqb (fst r) "p")
          (pre ++ post) = true ->
  open_file filename = inr buffer ->
  List.length buffer = DX7Sysex.sizeof ->
  snd (verify buffer) = 0 ->
  dx7dump (pre ++ ("f"%char, optarg) :: post) (filename :: rest) open_file
  = ((fst (dx7dump (pre ++ post) (filename :: rest) open_file)
      ++ findDuplicates buffer)%list, 0)
  /\ snd (dx7dump (pre ++ post) (filename :: rest) open_file) = 0.
Proof.
  intros H O Hlen Hrc.
  assert (F : forall r, In r (pre ++ post) ->
                        (Ascii.eqb (fst r) "l" || Ascii.eqb (fst r) "p") = true)
    by (apply forallb_forall; exact H).
  assert (Flags : forallb (fun r => is_flag (fst r)) (pre ++ post) = true).
  { apply forallb_forall. intros r Hr. unfold is_flag.
    specialize (F r Hr). apply orb_true_iff in F.
    destruct F as [-> | ->]; [reflexivity | apply orb_true_r]. }
  assert (Flags' : forallb (fun r => is_flag (fst r))
                           (pre ++ ("f"%char, optarg) :: post) = true).
  { rewrite forallb_app in *. cbn [forallb fst].
    apply andb_true_iff in Flags. destruct Flags as [-> ->]. reflexivity. }
  assert (NoF : existsb (fun r => Ascii.eqb (fst r) "f") (pre ++ post) = false).
  { apply not_true_is_false. intros E. apply existsb_exists in E.
    destruct E as [r [Hr E]]. apply Ascii.eqb_eq in E.
    specialize (F r Hr). rewrite E in F. discriminate F. }
  rewrite (dx7dump_flags _ filename rest open_file buffer Flags O).
  rewrite (dx7dump_flags _ filename rest open_file buffer Flags' O).
  rewrite NoF.
  replace (existsb (fun r => Ascii.eqb (fst r) "f")
                   (pre ++ ("f"%char, optarg) :: post)) with true
    by (rewrite existsb_app; cbn [existsb fst Ascii.eqb Bool.eqb andb orb];
        rewrite orb_true_r; reflexivity).
  replace (existsb (fun r => Ascii.eqb (fst r) "l" || Ascii.eqb (fst r) "p")
                   (pre ++ ("f"%char, optarg) :: post))
    with (existsb (fun r => Ascii.eqb (fst r) "l" || Ascii.eqb (fst r) "p")
                  (pre ++ post))
    by (rewrite !existsb_app; reflexivity).
  replace (last_patch (pre ++ ("f"%char, optarg) :: post) (-1))
    with (last_patch (pre ++ post) (-1))
    by (unfold last_patch; rewrite !fold_left_app; reflexivity).
  rewrite !(main_valid _ _ _ filename buffer Hlen Hrc).
  cbn [fst snd]. rewrite app_nil_r. split; reflexivity.
Qed.

Lemma find_duplicates_appends_witness :
  dx7dump [("f"%char, 0); ("p"%char, 2)]%list ["bank.syx"]%list
          (one_file "bank.syx" named_bank)
  = ((fst (dx7dump [("p"%char, 2)]%list ["bank.syx"]%list
                   (one_file "bank.syx" named_bank))
      ++ findDuplicates named_bank)%list, 0).
Proof.
  apply (proj1 (find_duplicates_appends []%list [("p"%char, 2)]%list 0
                  "bank.syx" []%list (one_file "bank.syx" named_bank)
                  named_bank
                  ltac:(vm_compute; reflexivity)
                  ltac:(vm_compute; reflexivity)
                  ltac:(vm_compute; reflexivity)
                  ltac:(vm_compute; reflexivity))).
Defined.
